(** * Drools RAG API: the HTTP service (api_drools.py) and the bootstrap
      script (setup_api.py), embedded and verified.

    The development has three layers of definitions:
    - [Py]: the Python values the two files manipulate (text as sequences of
      code points, [str.strip], the [in] test on text, [repr], [%d], ...);
    - [Api]: the request handlers of api_drools.py, run against a [World]
      that holds the external collaborators (the pipeline object, the two
      auxiliary loaders, the clock), with the calls they make logged;
    - [Setup]: the bootstrap script of setup_api.py, run against a [Host]
      (operating system, external tools, user input) and a file system.
    The theorems follow the definitions. *)

From Stdlib Require Import ZArith NArith List String Ascii Bool Lia.
From Stdlib Require DecimalString.
From Stdlib Require Import Floats.PrimFloat.
From stdpp Require Import base option list gmap.
Import ListNotations.

Local Open Scope Z_scope.

(* ===================================================================== *)
(** * Python values                                                        *)
(* ===================================================================== *)

Module Py.

(** A Python [str] is a sequence of Unicode code points. *)
Definition char : Type := N.
Definition str : Type := list char.

(** An ASCII literal of the source. *)
Definition lit (s : string) : str := map N_of_ascii (list_ascii_of_string s).

(** [len(s)] *)
Definition len {A : Type} (s : list A) : Z := Z.of_nat (length s).

(** [a == b] on text *)
Fixpoint str_eqb (a b : str) : bool :=
  match a, b with
  | [], [] => true
  | x :: a', y :: b' => N.eqb x y && str_eqb a' b'
  | _, _ => false
  end.

(** [s.startswith(p)] *)
Fixpoint startswith (p s : str) : bool :=
  match p, s with
  | [], _ => true
  | x :: p', y :: s' => N.eqb x y && startswith p' s'
  | _ :: _, [] => false
  end.

(** [needle in hay]: [needle] occurs in [hay] as a contiguous run. *)
Fixpoint contains (needle hay : str) : bool :=
  startswith needle hay ||
  match hay with
  | [] => false
  | _ :: rest => contains needle rest
  end.

(** The characters [str.strip()] removes: those for which CPython's
    [Py_UNICODE_ISSPACE] holds. *)
Definition isspace (c : char) : bool :=
  ((0x09 <=? c) && (c <=? 0x0D) || (0x1C <=? c) && (c <=? 0x20)
   || (c =? 0x85) || (c =? 0xA0) || (c =? 0x1680)
   || (0x2000 <=? c) && (c <=? 0x200A)
   || (c =? 0x2028) || (c =? 0x2029) || (c =? 0x202F) || (c =? 0x205F)
   || (c =? 0x3000))%N.

Fixpoint lstrip (s : str) : str :=
  match s with
  | c :: rest => if isspace c then lstrip rest else s
  | [] => []
  end.

Definition rstrip (s : str) : str := rev (lstrip (rev s)).

(** [s.strip()] *)
Definition strip (s : str) : str := rstrip (lstrip s).

(** A text with no white space at either end. *)
Definition trimmed (s : str) : Prop :=
  (forall c rest, s = c :: rest -> isspace c = false) /\
  (forall c init, s = init ++ [c] -> isspace c = false).

(** [sep.join(parts)] *)
Fixpoint join (sep : str) (parts : list str) : str :=
  match parts with
  | [] => []
  | [p] => p
  | p :: rest => p ++ sep ++ join sep rest
  end.

(** ["%d" % n] *)
Definition str_of_int (n : Z) : str :=
  lit (DecimalString.NilZero.string_of_int (Z.to_int n)).

(** ["%02d" % n]: the decimal text, filled with zeros on the left up to two
    characters (the [%m], [%d], [%H] and [%M] fields of [strftime]). *)
Definition fmt_02d (n : Z) : str :=
  let s := str_of_int n in
  repeat 0x30%N (2 - length s)%nat ++ s.

Definition is_digit (c : char) : bool := ((0x30 <=? c) && (c <=? 0x39))%N.

(** Lower-case hexadecimal, [w] digits wide (the escapes of [repr]). *)
Definition hex_digit (d : N) : char :=
  (if d <? 10 then 0x30 + d else 0x61 + (d - 10))%N.

Fixpoint hex_fixed (w : nat) (n : N) : str :=
  match w with
  | O => []
  | S w' => hex_fixed w' (n / 16)%N ++ [hex_digit (n mod 16)%N]
  end.

Section Repr.
(** [str.isprintable] on one code point above ASCII comes from the
    interpreter's Unicode database. *)
Variable isprintable : char -> bool.

Definition repr_quote (s : str) : char :=
  if existsb (N.eqb 0x27) s && negb (existsb (N.eqb 0x22) s)
  then 0x22%N else 0x27%N.

Definition repr_char (quote c : char) : str :=
  (if (c =? quote) || (c =? 0x5C) then [0x5C; c]
   else if c =? 0x09 then lit "\t"
   else if c =? 0x0A then lit "\n"
   else if c =? 0x0D then lit "\r"
   else if (c <? 0x20) || (c =? 0x7F) then lit "\x" ++ hex_fixed 2 c
   else if c <? 0x7F then [c]
   else if isprintable c then [c]
   else if c <=? 0xFF then lit "\x" ++ hex_fixed 2 c
   else if c <=? 0xFFFF then lit "\u" ++ hex_fixed 4 c
   else lit "\U" ++ hex_fixed 8 c)%N.

(** [repr(s)] for a [str] *)
Definition repr_str (s : str) : str :=
  let q := repr_quote s in
  q :: flat_map (repr_char q) s ++ [q].

(** [str(l)] for a list of [str] *)
Definition str_of_list (l : list str) : str :=
  lit "[" ++ join (lit ", ") (map repr_str l) ++ lit "]".
End Repr.

(** An exception object, as far as the two files look at it: whether it is
    an instance of [FileNotFoundError], and [str(e)].  Only instances of
    [Exception] are represented; [KeyboardInterrupt], [SystemExit] raised by
    a collaborator and the like are outside the embedding. *)
Record exn : Type := Exn { is_file_not_found : bool; exn_str : str }.

(** The outcome of a Python call: a value, or a raised exception. *)
Inductive result (A : Type) : Type :=
| Return (a : A)
| Raise (e : exn).
Arguments Return {A} a.
Arguments Raise {A} e.

(** A surrogate code point.  A [str] may hold one on its own (JSON and file
    names can bring one in), and then it has no UTF-8 encoding. *)
Definition is_surrogate (c : char) : bool := ((0xD800 <=? c) && (c <=? 0xDFFF))%N.

(** [s.encode("utf-8")] returns. *)
Definition utf8_encodable (s : str) : bool :=
  forallb (fun c => negb (is_surrogate c)) s.

(** How many surrogates [s] starts with. *)
Fixpoint leading_surrogates (s : str) : nat :=
  match s with
  | c :: rest => if is_surrogate c then S (leading_surrogates rest) else O
  | [] => O
  end.

(** The first run of surrogates of [s], counting positions from [pos]:
    where it starts, how long it is, and its first character. *)
Fixpoint first_surrogates (pos : nat) (s : str) : option (nat * nat * char) :=
  match s with
  | [] => None
  | c :: rest =>
      if is_surrogate c then Some (pos, leading_surrogates s, c)
      else first_surrogates (S pos) rest
  end.

(** The [UnicodeEncodeError] that [s.encode("utf-8")] raises, if it does;
    the error covers the first run of surrogates. *)
Definition utf8_encode_error (s : str) : option exn :=
  match first_surrogates 0 s with
  | None => None
  | Some (start, n, bad) =>
      Some {| is_file_not_found := false;
              exn_str :=
                if Nat.eqb n 1 then
                  lit "'utf-8' codec can't encode character '\u" ++ hex_fixed 4 bad
                  ++ lit "' in position " ++ str_of_int (Z.of_nat start)
                  ++ lit ": surrogates not allowed"
                else
                  lit "'utf-8' codec can't encode characters in position "
                  ++ str_of_int (Z.of_nat start) ++ lit "-"
                  ++ str_of_int (Z.of_nat (start + n - 1))
                  ++ lit ": surrogates not allowed" |}
  end.

(** [datetime.datetime] *)
Record datetime : Type := Datetime {
  year : Z; month : Z; day : Z; hour : Z; minute : Z; second : Z
}.

(** The ranges every [datetime] object satisfies. *)
Definition valid_datetime (d : datetime) : bool :=
  (1 <=? month d) && (month d <=? 12) && (1 <=? day d) && (day d <=? 31)
  && (0 <=? hour d) && (hour d <=? 23) && (0 <=? minute d) && (minute d <=? 59)
  && (0 <=? second d) && (second d <=? 59).

(** [d.strftime("%m_%d_%H_%M")] *)
Definition strftime_m_d_H_M (d : datetime) : str :=
  fmt_02d (month d) ++ lit "_" ++ fmt_02d (day d) ++ lit "_"
  ++ fmt_02d (hour d) ++ lit "_" ++ fmt_02d (minute d).

(** A fragment of [re] large enough for the file-name pattern, matched by
    Brzozowski derivatives.  [Digit] is [\d] restricted to ASCII digits, so a full
    match here is a full match of Python's wider [\d]. *)
Inductive regex : Type :=
| Empty
| Eps
| Lit (c : char)
| Digit
| Seq (r1 r2 : regex)
| Alt (r1 r2 : regex).

Fixpoint nullable (r : regex) : bool :=
  match r with
  | Empty => false
  | Eps => true
  | Lit _ => false
  | Digit => false
  | Seq r1 r2 => nullable r1 && nullable r2
  | Alt r1 r2 => nullable r1 || nullable r2
  end.

Fixpoint deriv (c : char) (r : regex) : regex :=
  match r with
  | Empty => Empty
  | Eps => Empty
  | Lit x => if N.eqb x c then Eps else Empty
  | Digit => if is_digit c then Eps else Empty
  | Seq r1 r2 =>
      if nullable r1 then Alt (Seq (deriv c r1) r2) (deriv c r2)
      else Seq (deriv c r1) r2
  | Alt r1 r2 => Alt (deriv c r1) (deriv c r2)
  end.

(** [re.fullmatch(r, s) is not None] *)
Fixpoint fullmatch (r : regex) (s : str) : bool :=
  match s with
  | [] => nullable r
  | c :: rest => fullmatch (deriv c r) rest
  end.

Definition re_lit (s : str) : regex := fold_right (fun c r => Seq (Lit c) r) Eps s.
Definition re_seq (rs : list regex) : regex := fold_right Seq Eps rs.

End Py.

(* ===================================================================== *)
(** * The HTTP service (api_drools.py)                                     *)
(* ===================================================================== *)

Module Api.
Import Py.

(** ** Request and response models *)

Record GenerateRequest : Type := { query : str; k : Z }.

Record Chunk : Type := { content : str; score : float }.

Record GenerateResponse : Type := { drools_code : str }.

(** The JSON body of a request before pydantic has seen it: either field
    may be absent. *)
Record Body : Type := { body_query : option str; body_k : option Z }.

(** Validation by the [Field] constraints of [GenerateRequest]:
    [query] is required, has to be text pydantic can read (a [str] with a
    lone surrogate is refused as not valid Unicode) and has [min_length=3];
    [k] defaults to 15 and is checked against [ge=1], [le=50] when
    present. *)
Definition validate (b : Body) : option GenerateRequest :=
  match body_query b with
  | None => None
  | Some q =>
      if utf8_encodable q && (3 <=? len q) then
        match body_k b with
        | None => Some {| query := q; k := 15 |}
        | Some n =>
            if (1 <=? n) && (n <=? 50) then Some {| query := q; k := n |}
            else None
        end
      else None
  end.

(** ** The external collaborators *)

(** An object the service holds but never looks into (the vector index, a
    metadata entry). *)
Inductive opaque : Type := Opaque (id : N).

(** The pipeline object: its two readable attributes ([None] is Python's
    [None]) and its generation operation. *)
Record DroolsRAGPipeline : Type := {
  index : option opaque;
  metadata : option (list opaque);
  generate_drools : str -> str -> str -> Z -> result (str * list Chunk)
}.

(** What one request finds around it: the global [pipeline], what the two
    static loaders do when called, and the clock. *)
Record World : Type := {
  pipeline : option DroolsRAGPipeline;
  load_form : result str;
  load_java_model : result str;
  now : datetime
}.

(** The calls a handler makes on the collaborators, in order. *)
Inductive call : Type :=
| CallLoadForm
| CallLoadJavaModel
| CallGenerateDrools (query form_content java_model_content : str) (k : Z).

(** ** A handler body: the calls made so far and a value or an exception *)

Definition M (A : Type) : Type := list call * result A.

Definition ret {A : Type} (a : A) : M A := ([], Return a).

Definition bind {A B : Type} (m : M A) (f : A -> M B) : M B :=
  match m with
  | (t, Return a) => let (t', r) := f a in (t ++ t', r)
  | (t, Raise e) => (t, Raise e)
  end.

Definition invoke {A : Type} (c : call) (r : result A) : M A := ([c], r).

Notation "'let*' x ':=' m 'in' f" := (bind m (fun x => f))
  (at level 10, x pattern, m at level 100, f at level 200).

(** ** Responses *)

(** [fastapi.responses.Response(content, media_type, headers)] *)
Record Response : Type := {
  resp_content : str;
  media_type : str;
  headers : list (str * str)
}.

(** What a route answers: the value the handler returns (status 200), an
    [HTTPException], the framework's rejection of the request body, or the
    server's own "Internal Server Error" when an exception escapes. *)
Inductive reply (A : Type) : Type :=
| Ok (body : A)
| HTTPException (status_code : Z) (detail : str)
| RequestValidationError
| ServerError.
Arguments Ok {A} body.
Arguments HTTPException {A} status_code detail.
Arguments RequestValidationError {A}.
Arguments ServerError {A}.

Definition status {A : Type} (r : reply A) : Z :=
  match r with
  | Ok _ => 200
  | HTTPException s _ => s
  | RequestValidationError => 422
  | ServerError => 500
  end.

(** ** GET /health *)

Record Health : Type := {
  health_status : str;
  pipeline_loaded : bool;
  message : str
}.

Definition health_check (w : World) : list call * reply Health :=
  ([], Ok {| health_status := lit "healthy";
             pipeline_loaded := bool_decide (is_Some (pipeline w));
             message := lit "Drools RAG API is running" |}).

(** [Response(content=..., media_type=..., headers=...)]: the constructor
    encodes a text content as UTF-8 and raises when it cannot. *)
Definition make_response (content media : str) (hdrs : list (str * str))
    : M Response :=
  match utf8_encode_error content with
  | Some e => ([], Raise e)
  | None => ret {| resp_content := content; media_type := media; headers := hdrs |}
  end.

(** ** POST /generate *)

Definition generate_body (w : World) (p : DroolsRAGPipeline)
    (request : GenerateRequest) : M Response :=
  let* form_content := invoke CallLoadForm (load_form w) in
  let* java_model_content := invoke CallLoadJavaModel (load_java_model w) in
  let* (drools_code, chunks) :=
     invoke (CallGenerateDrools (query request) form_content
               java_model_content (k request))
            (generate_drools p (query request) form_content
               java_model_content (k request)) in
  let clean_code := strip drools_code in
  let timestamp := strftime_m_d_H_M (now w) in
  let filename := lit "generated_rule_" ++ timestamp ++ lit ".drl" in
  make_response clean_code (lit "application/octet-stream")
    [(lit "Content-Disposition", lit "attachment; filename=" ++ filename)].

Definition generate_drools_file (w : World) (request : GenerateRequest)
    : list call * reply Response :=
  match pipeline w with
  | None =>
      ([], HTTPException 503 (lit "Pipeline not initialized. Check server logs."))
  | Some p =>
      match generate_body w p request with
      | (t, Return r) => (t, Ok r)
      | (t, Raise e) =>
          if is_file_not_found e then
            (t, HTTPException 400 (lit "Required file not found: " ++ exn_str e))
          else
            (t, HTTPException 500 (lit "Error generating Drools code: " ++ exn_str e))
      end
  end.

(** An [HTTPException] reaches the client as JSON holding its detail,
    encoded as UTF-8; when the detail cannot be encoded, the exception of
    the encoder escapes and the server answers with its own 500. *)
Definition send {A : Type} (r : reply A) : reply A :=
  match r with
  | HTTPException _ detail => if utf8_encodable detail then r else ServerError
  | _ => r
  end.

(** The report of a rejected body quotes each value it refuses; it can be
    sent unless the query, the only text among them, cannot be encoded. *)
Definition report_encodable (b : Body) : bool :=
  match body_query b with
  | Some q => utf8_encodable q
  | None => true
  end.

(** The route as a client sees it: the body is validated first, and the
    handler runs only on a body that passed.  A rejected body is answered
    with the report (422) when the report can be sent. *)
Definition post_generate (w : World) (b : Body) : list call * reply Response :=
  match validate b with
  | None =>
      ([], if report_encodable b then RequestValidationError else ServerError)
  | Some request =>
      let (t, r) := generate_drools_file w request in (t, send r)
  end.

(** ** GET /info *)

Record Info : Type := {
  form_loaded : bool;
  form_size : Z;
  java_model_loaded : bool;
  java_model_size : Z;
  faiss_index_loaded : bool;
  metadata_loaded : bool;
  metadata_entries : Z
}.

(** Truth value of an optional sized container: [None] and the empty
    container are false. *)
Definition truthy {A : Type} (o : option (list A)) : bool :=
  match o with
  | None => false
  | Some l => negb (len l =? 0)
  end.

Definition info_body (w : World) (p : DroolsRAGPipeline) : M Info :=
  let* form_content := invoke CallLoadForm (load_form w) in
  let* java_model_content := invoke CallLoadJavaModel (load_java_model w) in
  ret {| form_loaded := negb (contains (lit "Form content not found") form_content);
         form_size := len form_content;
         java_model_loaded :=
           negb (contains (lit "Java model file not found") java_model_content);
         java_model_size := len java_model_content;
         faiss_index_loaded := bool_decide (is_Some (index p));
         metadata_loaded := bool_decide (is_Some (metadata p));
         metadata_entries :=
           if truthy (metadata p)
           then match metadata p with Some l => len l | None => 0 end
           else 0 |}.

Definition get_info (w : World) : list call * reply Info :=
  match pipeline w with
  | None => ([], HTTPException 503 (lit "Pipeline not initialized"))
  | Some p =>
      match info_body w p with
      | (t, Return r) => (t, Ok r)
      | (t, Raise e) => (t, HTTPException 500 (exn_str e))
      end
  end.

(** The generated text of a generation outcome, the chunks dropped. *)
Definition code_of (r : result (str * list Chunk)) : result str :=
  match r with
  | Return (code, _) => Return code
  | Raise e => Raise e
  end.

(** The world [w] with [p] as its initialised pipeline. *)
Definition serving (w : World) (p : DroolsRAGPipeline) : World :=
  {| pipeline := Some p;
     load_form := load_form w;
     load_java_model := load_java_model w;
     now := now w |}.

(** The file-name pattern [generated_rule_\d{2}_\d{2}_\d{2}_\d{2}\.drl]. *)
Definition filename_pattern : regex :=
  re_seq [re_lit (lit "generated_rule_"); Digit; Digit; Lit 0x5F%N;
          Digit; Digit; Lit 0x5F%N; Digit; Digit; Lit 0x5F%N;
          Digit; Digit; re_lit (lit ".drl")].

(** ** Process start *)





End Api.

(* ===================================================================== *)
(** * The bootstrap script (setup_api.py)                                  *)
(* ===================================================================== *)

Module Setup.
Import Py.

(** ** The file system *)

(** A path is the list of its components below the directory the script is
    started in; the script never leaves that directory and builds every
    path from [Path("Drools-api").resolve()].  Symbolic links are not
    represented. *)
Definition path : Type := list str.

Inductive node : Type :=
| Dir
| File (content : str) (mode : Z).

Definition same_kind (a b : node) : bool :=
  match a, b with
  | Dir, Dir => true
  | File _ _, File _ _ => true
  | _, _ => false
  end.

(** [p.parent] *)
Definition parent (p : path) : path := List.removelast p.

(** [p.name] *)
Definition name (p : path) : str := List.last p [].

(** ** What the script runs on *)

(** [subprocess.CompletedProcess] with captured, decoded output. *)
Record CompletedProcess : Type := {
  returncode : Z;
  stdout : str;
  stderr : str
}.

(** [subprocess.CalledProcessError] *)
Record CalledProcessError : Type := {
  cpe_returncode : Z;
  cpe_cmd : list str;
  cpe_output : str;
  cpe_stderr : str
}.

(** The machine and the tools: everything the script reaches outside its
    own text.
    - [os_name] is [os.name]; [anchor] and [cwd] give the absolute directory
      the script is started in; [new_file_mode] is the mode a created file
      gets (0o666 less the umask);
    - [isprintable] and [signal_name] are the interpreter's tables behind
      [repr] and [signal.Signals(n)] ([None] where the latter raises
      [ValueError]);
    - [spawn] is the child process of [subprocess.run]: it either cannot be
      started, or completes with a return code and captured output;
      [venv_create] is [venv.create(dir, with_pip=True)]; both may change
      the file system;
    - [input] is what [input(prompt)] returns. *)
Record Host : Type := {
  os_name : str;
  anchor : str;
  cwd : list str;
  new_file_mode : Z;
  isprintable : char -> bool;
  signal_name : Z -> option str;
  spawn : list str -> option path -> gmap path node
          -> gmap path node * result CompletedProcess;
  venv_create : path -> gmap path node -> gmap path node * result unit;
  input : str -> result str
}.

Definition is_nt (h : Host) : bool := str_eqb (os_name h) (lit "nt").

(** [str(p)] for an absolute path *)
Definition path_str (h : Host) (p : path) : str :=
  anchor h ++ join (if is_nt h then [0x5C%N] else lit "/") (cwd h ++ p).

(** [str(e)] for a [CalledProcessError] *)
Definition str_of_CalledProcessError (h : Host) (e : CalledProcessError) : str :=
  let cmd := str_of_list (isprintable h) (cpe_cmd e) in
  let rc := cpe_returncode e in
  if rc <? 0 then
    match signal_name h (- rc) with
    | Some sig =>
        lit "Command '" ++ cmd ++ lit "' died with <Signals." ++ sig
        ++ lit ": " ++ str_of_int (- rc) ++ lit ">."
    | None =>
        lit "Command '" ++ cmd ++ lit "' died with unknown signal "
        ++ str_of_int (- rc) ++ lit "."
    end
  else
    lit "Command '" ++ cmd ++ lit "' returned non-zero exit status "
    ++ str_of_int rc ++ lit ".".

(** ** The script's state and control *)

(** What the script does to the outside, in order.  A [EvSpawn] or
    [EvVenvCreate] keeps the outcome and the file system it left. *)
Inductive event : Type :=
| EvSpawn (argv : list str) (dir : option path)
          (r : result CompletedProcess) (after : gmap path node)
| EvVenvCreate (dir : path) (r : result unit) (after : gmap path node)
| EvInput (prompt : str)
| EvWriteText (p : path) (content : str)
| EvChmod (p : path) (mode : Z).

(** The file system, what has been written to standard output, and the
    events so far. *)
Record state : Type := {
  fs : gmap path node;
  out : list str;
  trace : list event
}.

(** How a run stops early: [sys.exit(code)], or an exception nobody
    catches. *)
Inductive abort : Type :=
| SystemExit (code : Z)
| Uncaught (e : exn).

Inductive res (A : Type) : Type :=
| Val (a : A)
| Abort (why : abort).
Arguments Val {A} a.
Arguments Abort {A} why.

Definition M (A : Type) : Type := state -> state * res A.

Definition ret {A : Type} (a : A) : M A := fun st => (st, Val a).

Definition bind {A B : Type} (m : M A) (f : A -> M B) : M B :=
  fun st =>
    match m st with
    | (st', Val a) => f a st'
    | (st', Abort why) => (st', Abort why)
    end.

Notation "'let*' x ':=' m 'in' f" := (bind m (fun x => f))
  (at level 10, x pattern, m at level 100, f at level 200).
Notation "m ;; f" := (bind m (fun _ => f))
  (at level 100, f at level 200, right associativity).

(** The exit status of the process. *)
Definition exit_status {A : Type} (r : res A) : Z :=
  match r with
  | Val _ => 0
  | Abort (SystemExit code) => code
  | Abort (Uncaught _) => 1
  end.

Definition log (ev : event) (st : state) : state :=
  {| fs := fs st; out := out st; trace := trace st ++ [ev] |}.

Definition set_fs (m : gmap path node) (st : state) : state :=
  {| fs := m; out := out st; trace := trace st |}.

(** [print(s)] *)
Definition print (s : str) : M unit :=
  fun st => ({| fs := fs st; out := out st ++ [s ++ [0x0A%N]]; trace := trace st |},
             Val tt).

(** [sys.exit(code)] *)
Definition sys_exit {A : Type} (code : Z) : M A :=
  fun st => (st, Abort (SystemExit code)).

(** [p.exists()] *)
Definition exists_ (p : path) : M bool :=
  fun st => (st, Val (bool_decide (is_Some (fs st !! p)))).

(** The [OSError] of a file operation on [p]. *)
Definition os_error (h : Host) (missing : bool) (what : string) (p : path) : exn :=
  {| is_file_not_found := missing;
     exn_str := lit what ++ lit ": "
                ++ repr_str (isprintable h) (path_str h p) |}.

(** [p.write_text(content)]: the directory of [p] has to be there; an
    existing file keeps its mode. *)
Definition write_text (h : Host) (p : path) (content : str) : M unit :=
  fun st =>
    let st' := log (EvWriteText p content) st in
    match fs st !! parent p with
    | Some Dir =>
        match fs st !! p with
        | Some Dir => (st', Abort (Uncaught (os_error h false "[Errno 21] Is a directory" p)))
        | Some (File _ mode) => (set_fs (<[p := File content mode]> (fs st)) st', Val tt)
        | None => (set_fs (<[p := File content (new_file_mode h)]> (fs st)) st', Val tt)
        end
    | Some (File _ _) =>
        (st', Abort (Uncaught (os_error h false "[Errno 20] Not a directory" p)))
    | None =>
        (st', Abort (Uncaught (os_error h true "[Errno 2] No such file or directory" p)))
    end.

(** [p.chmod(mode)] *)
Definition chmod (h : Host) (p : path) (mode : Z) : M unit :=
  fun st =>
    let st' := log (EvChmod p mode) st in
    match fs st !! p with
    | Some (File content _) => (set_fs (<[p := File content mode]> (fs st)) st', Val tt)
    | Some Dir => (st', Val tt)
    | None =>
        (st', Abort (Uncaught (os_error h true "[Errno 2] No such file or directory" p)))
    end.

(** [subprocess.run(command, cwd=cwd, check=True, capture_output=True,
    text=True)]: the completed process, or the [CalledProcessError] that
    [check=True] raises on a return code other than 0; any other exception
    goes uncaught. *)
Definition subprocess_run (h : Host) (command : list str) (dir : option path)
    : M (CompletedProcess + CalledProcessError) :=
  fun st =>
    let (after, r) := spawn h command dir (fs st) in
    let st' := set_fs after (log (EvSpawn command dir r after) st) in
    match r with
    | Raise e => (st', Abort (Uncaught e))
    | Return c =>
        if returncode c =? 0 then (st', Val (inl c))
        else (st', Val (inr {| cpe_returncode := returncode c;
                               cpe_cmd := command;
                               cpe_output := stdout c;
                               cpe_stderr := stderr c |}))
    end.

(** [venv.create(dir, with_pip=True)] *)
Definition venv_create_ (h : Host) (dir : path) : M unit :=
  fun st =>
    let (after, r) := venv_create h dir (fs st) in
    let st' := set_fs after (log (EvVenvCreate dir r after) st) in
    match r with
    | Raise e => (st', Abort (Uncaught e))
    | Return _ => (st', Val tt)
    end.

(** [input(prompt)] *)
Definition input_ (h : Host) (prompt : str) : M str :=
  fun st =>
    let st' := {| fs := fs st; out := out st ++ [prompt];
                  trace := trace st ++ [EvInput prompt] |} in
    match input h prompt with
    | Raise e => (st', Abort (Uncaught e))
    | Return line => (st', Val line)
    end.

(** ** The script *)

Definition run_command (h : Host) (command : list str) (dir : option path)
    : M CompletedProcess :=
  let* r := subprocess_run h command dir in
  match r with
  | inl result => ret result
  | inr e =>
      print (lit "Error: " ++ str_of_CalledProcessError h e) ;;
      sys_exit 1
  end.

Definition repo_url : str := lit "https://github.com/Lakshya-serigor/Drools-api.git".
Definition project_dir_name : str := lit "Drools-api".

Definition clone_repository (h : Host) : M path :=
  let project_dir := project_dir_name in
  let* there := exists_ [project_dir] in
  (if there then
     print (lit "Directory '" ++ project_dir ++ lit "' exists, skipping clone.")
   else
     print (lit "Cloning repository...") ;;
     let* _ := run_command h [lit "git"; lit "clone"; repo_url] None in
     ret tt) ;;
  ret [project_dir].

Definition create_virtual_environment (h : Host) (project_dir : path) : M path :=
  let venv_dir := project_dir ++ [lit "venv"] in
  let* there := exists_ venv_dir in
  if there then
    print (lit "Virtual environment exists.") ;;
    ret venv_dir
  else
    print (lit "Creating virtual environment...") ;;
    venv_create_ h venv_dir ;;
    ret venv_dir.

Definition get_venv_python (h : Host) (venv_dir : path) : path :=
  if is_nt h then venv_dir ++ [lit "Scripts"; lit "python.exe"]
  else venv_dir ++ [lit "bin"; lit "python"].

Definition basic_requirements : str :=
  join [0x0A%N]
    [lit "fastapi>=0.104.0"; lit "uvicorn[standard]"; lit "openai";
     lit "faiss-cpu"; lit "python-dotenv"; lit "numpy"; lit "pydantic";
     lit "python-multipart"].

Definition install_requirements (h : Host) (project_dir venv_python : path)
    : M unit :=
  let requirement_file := project_dir ++ [lit "requirements.txt"] in
  let* there := exists_ requirement_file in
  (if negb there then
     print (lit "Creating requirements.txt...") ;;
     write_text h requirement_file basic_requirements
   else ret tt) ;;
  print (lit "Installing requirements...") ;;
  let* _ := run_command h [path_str h venv_python; lit "-m"; lit "pip";
                           lit "install"; lit "--upgrade"; lit "pip"] None in
  let* _ := run_command h [path_str h venv_python; lit "-m"; lit "pip";
                           lit "install"; lit "-r"; lit "requirements.txt"]
                        (Some project_dir) in
  ret tt.

Definition create_env_file (h : Host) (project_dir : path) : M unit :=
  let env_file := project_dir ++ [lit ".env"] in
  let* there := exists_ env_file in
  if there then
    print (lit ".env file exists.")
  else
    let* line := input_ h (lit "Enter OpenAI API key (or press Enter to skip): ") in
    let api_key := strip line in
    let env_content :=
      if negb (len api_key =? 0)
      then lit "OPENAI_API_KEY=" ++ api_key ++ [0x0A%N]
      else lit "OPENAI_API_KEY=your_api_key_here" ++ [0x0A%N] in
    write_text h env_file env_content ;;
    print (lit "Created .env file").

(** The text and the place of the launch script.  In the Windows text the
    source's [\S] is not an escape and stays as written, while its [\a] is
    the escape for the BEL character (code 7). *)
Definition run_script (h : Host) (project_dir : path) : str * path :=
  if is_nt h then
    (lit "@echo off" ++ [0x0A%N]
     ++ lit "call venv" ++ [0x5C%N] ++ lit "Scripts" ++ [0x07%N]
     ++ lit "ctivate.bat" ++ [0x0A%N]
     ++ lit "echo Starting Drools API..." ++ [0x0A%N]
     ++ lit "uvicorn api_drools:app --host 0.0.0.0 --port 8503 --reload" ++ [0x0A%N],
     project_dir ++ [lit "run_api.bat"])
  else
    (lit "#!/bin/bash" ++ [0x0A%N]
     ++ lit "source venv/bin/activate" ++ [0x0A%N]
     ++ lit "echo " ++ [0x22%N] ++ lit "Starting Drools API..." ++ [0x22%N] ++ [0x0A%N]
     ++ lit "uvicorn api_main:app --host 0.0.0.0 --port 8503 --reload" ++ [0x0A%N],
     project_dir ++ [lit "run_api.sh"]).

(** The permission bits [0o755] (rwxr-xr-x). *)
Definition mode_0o755 : Z := 7 * 64 + 5 * 8 + 5.

Definition create_run_script (h : Host) (project_dir : path) : M unit :=
  let (script_content, script_path) := run_script h project_dir in
  write_text h script_path script_content ;;
  (if negb (is_nt h) then chmod h script_path mode_0o755 else ret tt) ;;
  print (lit "Created " ++ name script_path).

Definition main (h : Host) : M unit :=
  print (lit "Drools RAG API Setup") ;;
  let* _ := run_command h [lit "git"; lit "--version"] None in
  let* project_dir := clone_repository h in
  let* venv_dir := create_virtual_environment h project_dir in
  let venv_python := get_venv_python h venv_dir in
  install_requirements h project_dir venv_python ;;
  create_env_file h project_dir ;;
  create_run_script h project_dir ;;
  print ([0x0A%N] ++ lit "Setup complete!") ;;
  print (lit "Project: " ++ path_str h project_dir) ;;
  print (lit "Add your OpenAI API key to .env file if needed.") ;;
  print ([0x0A%N] ++ lit "To start the API:") ;;
  (if is_nt h then print (lit "  run_api.bat") else print (lit "  ./run_api.sh")) ;;
  print ([0x0A%N] ++ lit "API will be available at: http://localhost:8503/docs").

(** A run of the script from a file system, with nothing written yet. *)
Definition start (m : gmap path node) : state :=
  {| fs := m; out := []; trace := [] |}.

(** ** Vocabulary for statements about runs *)

(** Every node of [m] is still there in [m'], as the same kind of node. *)
Definition kind_le (m m' : gmap path node) : Prop :=
  forall p n, m !! p = Some n ->
              exists n', m' !! p = Some n' /\ same_kind n n' = true.

(** Tools that leave what exists in place, and a [venv.create] that has made
    its directory when it returns. *)
Record well_behaved (h : Host) : Prop := {
  spawn_keeps : forall argv dir m, kind_le m (fst (spawn h argv dir m));
  venv_keeps : forall d m, kind_le m (fst (venv_create h d m));
  venv_creates : forall d m m',
      venv_create h d m = (m', Return tt) -> is_Some (m' !! d)
}.

(** The places the script looks at. *)
Definition project_dir : path := [project_dir_name].
Definition venv_dir : path := project_dir ++ [lit "venv"].
Definition requirement_file : path := project_dir ++ [lit "requirements.txt"].
Definition env_file : path := project_dir ++ [lit ".env"].

(** The effects of steps 2 to 6 are on disk. *)
Record set_up (h : Host) (m : gmap path node) : Prop := {
  has_project : m !! project_dir = Some Dir;
  has_venv : is_Some (m !! venv_dir);
  has_requirements : is_Some (m !! requirement_file);
  has_env : is_Some (m !! env_file);
  has_script : exists content mode,
      m !! snd (run_script h project_dir) = Some (File content mode)
}.

(** The external commands of the script. *)
Definition git_version : list str * option path :=
  ([lit "git"; lit "--version"], None).
Definition git_clone : list str * option path :=
  ([lit "git"; lit "clone"; repo_url], None).
Definition pip_upgrade (h : Host) : list str * option path :=
  ([path_str h (get_venv_python h venv_dir); lit "-m"; lit "pip";
    lit "install"; lit "--upgrade"; lit "pip"], None).
Definition pip_install (h : Host) : list str * option path :=
  ([path_str h (get_venv_python h venv_dir); lit "-m"; lit "pip";
    lit "install"; lit "-r"; lit "requirements.txt"], Some project_dir).

(** The commands started in a trace, in order. *)
Fixpoint commands (t : list event) : list (list str * option path) :=
  match t with
  | [] => []
  | EvSpawn argv dir _ _ :: rest => (argv, dir) :: commands rest
  | _ :: rest => commands rest
  end.

(** The command of [ev], if it is one, was started and returned 0. *)
Definition spawn_ok (ev : event) : Prop :=
  match ev with
  | EvSpawn _ _ r _ => exists c, r = Return c /\ returncode c = 0
  | _ => True
  end.

(** [ev] is a command that completed with a return code other than 0. *)
Definition failed (ev : event) : bool :=
  match ev with
  | EvSpawn _ _ (Return c) _ => negb (returncode c =? 0)
  | _ => false
  end.

(** Apart from commands, [ev] is the writing of the launch script or the
    setting of its mode. *)
Definition launch_script_only (h : Host) (ev : event) : Prop :=
  match ev with
  | EvSpawn _ _ _ _ => True
  | EvWriteText p content => (content, p) = run_script h project_dir
  | EvChmod p mode =>
      p = snd (run_script h project_dir) /\ mode = mode_0o755 /\ is_nt h = false
  | EvVenvCreate _ _ _ => False
  | EvInput _ => False
  end.

(** No step removes a node or changes its kind. *)
Definition keeps {A : Type} (m : M A) : Prop :=
  forall st st' r, m st = (st', r) -> kind_le (fs st) (fs st').

(** From a set-up file system, [m] starts the commands [cmds] in order (all of
    them if it completes), does nothing else outside but write the launch
    script, returns a value in [R], and completes if every command it starts
    returns 0. *)
Definition rerun (h : Host) {A : Type} (cmds : list (list str * option path))
    (R : A -> Prop) (m : M A) : Prop :=
  forall st st' r, set_up h (fs st) -> m st = (st', r) ->
    exists t, trace st' = trace st ++ t
      /\ Forall (launch_script_only h) t
      /\ commands t `prefix_of` cmds
      /\ (forall a, r = Val a -> R a /\ commands t = cmds)
      /\ (Forall spawn_ok t -> exists a, r = Val a).

(** The run ended at the failed command [ev]: it exited with status 1, the
    file system is as the command left it, and the last thing written is the
    line naming the command and its return code. *)
Definition stops_at (h : Host) {A : Type} (st' : state) (r : res A)
    (ev : event) : Prop :=
  match ev with
  | EvSpawn argv dir (Return c) after =>
      r = Abort (SystemExit 1)
      /\ fs st' = after
      /\ last (out st') =
           Some (lit "Error: "
                 ++ str_of_CalledProcessError h
                      {| cpe_returncode := returncode c; cpe_cmd := argv;
                         cpe_output := []; cpe_stderr := [] |}
                 ++ [0x0A%N])
  | _ => False
  end.

Definition clean (t : list event) : Prop := Forall (fun ev => failed ev = false) t.

(** Whatever [m] does, no command fails before its last event, and if the
    last one is a failed command the run has stopped there. *)
Definition fail_fast (h : Host) {A : Type} (m : M A) : Prop :=
  forall st st' r, m st = (st', r) ->
    exists t, trace st' = trace st ++ t
      /\ (clean t
          \/ exists t0 ev, t = t0 ++ [ev] /\ clean t0 /\ failed ev = true
                           /\ stops_at h st' r ev).

(** ** Vocabulary for statements about any run *)

(** [ev] is the start of a command. *)
Definition is_command (ev : event) : bool :=
  match ev with
  | EvSpawn _ _ _ _ => true
  | _ => false
  end.

(** Every way of following one of [A] by one of [B]. *)
Definition cross (A B : list (list (list str * option path)))
    : list (list (list str * option path)) :=
  flat_map (fun a => map (app a) B) A.

(** What the script may do outside, whatever it finds: start a command in
    the start directory or in the project directory, create the virtual
    environment of the project, ask for the key, write requirements.txt,
    .env or the launch script, each with its own text, and set the mode of
    the launch script off Windows. *)
Definition confined (h : Host) (ev : event) : Prop :=
  match ev with
  | EvSpawn _ dir _ _ => dir = None \/ dir = Some project_dir
  | EvVenvCreate d _ _ => d = venv_dir
  | EvInput prompt =>
      prompt = lit "Enter OpenAI API key (or press Enter to skip): "
  | EvWriteText p content =>
      (p = requirement_file /\ content = basic_requirements)
      \/ (p = env_file
          /\ exists key, content = lit "OPENAI_API_KEY=" ++ key ++ [0x0A%N]
                         /\ key <> [] /\ trimmed key)
      \/ (content, p) = run_script h project_dir
  | EvChmod p mode =>
      p = snd (run_script h project_dir) /\ mode = mode_0o755 /\ is_nt h = false
  end.

(** How the outcome recorded in [ev] ends a run, if it does: a command that
    could not be started or a [venv.create] that raised leaves the exception
    uncaught, a command that returned a code other than 0 makes the script
    exit with status 1. *)
Definition halting (ev : event) : option abort :=
  match ev with
  | EvSpawn _ _ (Raise e) _ => Some (Uncaught e)
  | EvSpawn _ _ (Return c) _ =>
      if returncode c =? 0 then None else Some (SystemExit 1)
  | EvVenvCreate _ (Raise e) _ => Some (Uncaught e)
  | _ => None
  end.

(** No event of [t] but the last ends the run, and if the last one does,
    the run has ended that way. *)
Definition halts {A : Type} (t : list event) (r : res A) : Prop :=
  Forall (fun ev => halting ev = None) t
  \/ exists t0 ev why,
       t = t0 ++ [ev] /\ Forall (fun ev => halting ev = None) t0
       /\ halting ev = Some why /\ r = Abort why.

(** From any state, the events of [m] satisfy [P], the commands it starts
    are the beginning of one of [alts] (and one of them in full if [m]
    completes), a value it returns is in [R], it exits with status 1 if it
    exits, and it stops at the first outcome that ends a run. *)
Definition conducts (P : event -> Prop) {A : Type}
    (alts : list (list (list str * option path))) (R : A -> Prop) (m : M A)
    : Prop :=
  forall st st' r, m st = (st', r) ->
    exists t, trace st' = trace st ++ t
      /\ Forall P t
      /\ (exists a, In a alts /\ commands t `prefix_of` a)
      /\ (forall v, r = Val v -> R v /\ In (commands t) alts)
      /\ (forall code, r = Abort (SystemExit code) -> code = 1)
      /\ halts t r.

End Setup.

(* ===================================================================== *)
(** * Sample worlds and hosts                                              *)
(* ===================================================================== *)

Module ApiSamples.
Import Py Api.

Definition sample_now : datetime :=
  {| year := 2026; month := 11; day := 3; hour := 9; minute := 5; second := 0 |}.

Definition sample_chunks : list Chunk :=
  [ {| content := lit "rule context"; score := 0.75%float |} ].

Definition sample_pipeline : DroolsRAGPipeline :=
  {| index := Some (Opaque 1);
     metadata := Some [Opaque 2; Opaque 3];
     generate_drools := fun _ _ _ _ => Return (lit "  rule X end  ", sample_chunks) |}.

(** The same pipeline, returning no chunk. *)
Definition bare_pipeline : DroolsRAGPipeline :=
  {| index := Some (Opaque 1);
     metadata := Some [Opaque 2; Opaque 3];
     generate_drools := fun _ _ _ _ => Return (lit "  rule X end  ", []) |}.

Definition ready_world : World :=
  {| pipeline := Some sample_pipeline;
     load_form := Return (lit "{fields: []}");
     load_java_model := Return (lit "class Model {}");
     now := sample_now |}.

Definition unset_world : World :=
  {| pipeline := None;
     load_form := Return (lit "{fields: []}");
     load_java_model := Return (lit "class Model {}");
     now := sample_now |}.

Definition sentinel_world : World :=
  {| pipeline := Some sample_pipeline;
     load_form := Return (lit "Form content not found.");
     load_java_model := Return (lit "Java model file not found.");
     now := sample_now |}.

(** A form that quotes the sentinel inside real content. *)
Definition quoting_world : World :=
  {| pipeline := Some sample_pipeline;
     load_form := Return (lit "label: Form content not found (shown when empty)");
     load_java_model := Return (lit "class Model {}");
     now := sample_now |}.

Definition missing_file_world : World :=
  {| pipeline := Some sample_pipeline;
     load_form := Return (lit "{fields: []}");
     load_java_model :=
       Raise {| is_file_not_found := true;
                exn_str := lit "[Errno 2] No such file or directory: 'models/Model.java'" |};
     now := sample_now |}.

Definition short_body : Body := {| body_query := Some (lit "ab"); body_k := None |}.
Definition wide_body : Body := {| body_query := Some (lit "discount rule"); body_k := Some 51 |}.
Definition plain_body : Body := {| body_query := Some (lit "discount rule"); body_k := None |}.
Definition sample_request : GenerateRequest := {| query := lit "discount rule"; k := 15 |}.

(** Bodies whose query holds a lone surrogate, as the JSON text
    ["\ud800abc"] gives: one of four characters, one of one. *)
Definition surrogate_body : Body :=
  {| body_query := Some ([0xD800%N] ++ lit "abc"); body_k := None |}.
Definition short_surrogate_body : Body :=
  {| body_query := Some [0xD800%N]; body_k := None |}.




(** A pipeline that answers with white space only, and its world. *)
Definition blank_pipeline : DroolsRAGPipeline :=
  {| index := None;
     metadata := None;
     generate_drools := fun _ _ _ _ => Return ([0x20; 0x0A; 0x09]%N, sample_chunks) |}.

Definition blank_world : World :=
  {| pipeline := Some blank_pipeline;
     load_form := Return [];
     load_java_model := Return [];
     now := sample_now |}.

(** A pipeline whose text holds a lone surrogate, and its world. *)
Definition surrogate_pipeline : DroolsRAGPipeline :=
  {| index := None;
     metadata := None;
     generate_drools := fun _ _ _ _ =>
       Return (lit " rule " ++ [0xD800%N] ++ lit " end ", sample_chunks) |}.

Definition surrogate_world : World :=
  {| pipeline := Some surrogate_pipeline;
     load_form := Return [];
     load_java_model := Return [];
     now := sample_now |}.

(** The world of [ready_world], forty seconds and one year later. *)
Definition later_world : World :=
  {| pipeline := Some bare_pipeline;
     load_form := Return (lit "{fields: []}");
     load_java_model := Return (lit "class Model {}");
     now := {| year := 2027; month := 11; day := 3; hour := 9; minute := 5;
               second := 40 |} |}.

End ApiSamples.

Module SetupSamples.
Import Py Setup.

Definition completed (code : Z) (err : str) : CompletedProcess :=
  {| returncode := code; stdout := []; stderr := err |}.

Definition pip_error_text : str :=
  lit "ERROR: No matching distribution found for faiss-cpu".

(** A POSIX machine with working tools: [git clone] makes the project
    directory (and refuses when something is in its place), [venv.create]
    makes its directory, every other command returns 0 and changes nothing.
    With [pip_works] false, [pip install -r] returns 1 with an error text. *)
Definition posix_machine (pip_works : bool) : Host :=
  {| os_name := lit "posix";
     anchor := lit "/";
     cwd := [lit "home"; lit "dev"];
     new_file_mode := 6 * 64 + 4 * 8 + 4;
     isprintable := fun _ => true;
     signal_name := fun n => if n =? 9 then Some (lit "SIGKILL") else None;
     spawn := fun argv dir m =>
       if str_eqb (nth 1 argv []) (lit "clone") then
         match m !! project_dir with
         | None => (<[project_dir := Dir]> m, Return (completed 0 []))
         | Some _ =>
             (m, Return (completed 128
                  (lit "fatal: destination path 'Drools-api' already exists")))
         end
       else if str_eqb (nth 4 argv []) (lit "-r") && negb pip_works then
         (m, Return (completed 1 pip_error_text))
       else (m, Return (completed 0 []));
     venv_create := fun d m =>
       match m !! d with
       | None => (<[d := Dir]> m, Return tt)
       | Some Dir => (m, Return tt)
       | Some (File _ _) =>
           (m, Raise {| is_file_not_found := false;
                        exn_str := lit "[Errno 17] File exists" |})
       end;
     input := fun _ => Return (lit " sk-sample ") |}.

Definition posix_host : Host := posix_machine true.
Definition pip_fails_host : Host := posix_machine false.

(** The same machine under Windows. *)
Definition nt_host : Host :=
  {| os_name := lit "nt";
     anchor := lit "C:" ++ [0x5C%N];
     cwd := [lit "dev"];
     new_file_mode := 6 * 64 + 6 * 8 + 6;
     isprintable := isprintable posix_host;
     signal_name := fun _ => None;
     spawn := spawn posix_host;
     venv_create := venv_create posix_host;
     input := input posix_host |}.

(** A file system holding the project directory and nothing else. *)
Definition cloned : gmap path node := {[ project_dir := Dir ]}.

(** The POSIX machine without git: the command cannot be started. *)
Definition no_git_host : Host :=
  {| os_name := lit "posix";
     anchor := lit "/";
     cwd := [lit "home"; lit "dev"];
     new_file_mode := 6 * 64 + 4 * 8 + 4;
     isprintable := fun _ => true;
     signal_name := fun _ => None;
     spawn := fun argv dir m =>
       (m, Raise {| is_file_not_found := true;
                    exn_str := lit "[Errno 2] No such file or directory: 'git'" |});
     venv_create := venv_create posix_host;
     input := input posix_host |}.


End SetupSamples.

(* ===================================================================== *)
(** * Properties of the Python values                                      *)
(* ===================================================================== *)

Module PyFacts.
Import Py.

Lemma startswith_app (p rest : str) : startswith p (p ++ rest) = true.
Proof.
  induction p as [|x p IH]; simpl; [reflexivity|].
  now rewrite N.eqb_refl, IH.
Qed.

Lemma startswith_inv (p s : str) :
  startswith p s = true -> exists rest, s = p ++ rest.
Proof.
  revert s; induction p as [|x p IH]; intros s H.
  - now exists s.
  - destruct s as [|y s]; simpl in H; [discriminate|].
    apply andb_prop in H as [Hxy Hps].
    apply N.eqb_eq in Hxy; subst y.
    destruct (IH _ Hps) as [rest ->].
    now exists rest.
Qed.

(** [needle in hay] is exactly: [hay] splits around one occurrence. *)
Lemma contains_spec (needle hay : str) :
  contains needle hay = true <-> exists pre post, hay = pre ++ needle ++ post.
Proof.
  split.
  - induction hay as [|c hay IH]; simpl; intros H.
    + rewrite orb_false_r in H.
      destruct (startswith_inv _ _ H) as [rest Hr]. now exists [], rest.
    + apply orb_prop in H as [H|H].
      * destruct (startswith_inv _ _ H) as [rest Hr]. now exists [], rest.
      * destruct (IH H) as (pre & post & ->). now exists (c :: pre), post.
  - intros (pre & post & ->).
    induction pre as [|c pre IH]; simpl.
    + pose proof (startswith_app needle post) as Hs.
      destruct (needle ++ post); simpl; now rewrite Hs.
    + rewrite IH. apply orb_true_r.
Qed.

Lemma contains_false (needle hay : str) :
  contains needle hay = false <-> ~ exists pre post, hay = pre ++ needle ++ post.
Proof.
  rewrite <- contains_spec. destruct (contains needle hay); split; intros H.
  - discriminate.
  - now destruct H.
  - intros ?; discriminate.
  - reflexivity.
Qed.

Lemma contains_app_l (needle pre hay : str) :
  contains needle hay = true -> contains needle (pre ++ hay) = true.
Proof.
  rewrite !contains_spec. intros (a & b & ->).
  exists (pre ++ a), b. now rewrite <- app_assoc.
Qed.

Lemma contains_len (needle hay : str) :
  contains needle hay = true -> len needle <= len hay.
Proof.
  rewrite contains_spec. intros (a & b & ->).
  unfold len. rewrite !length_app. lia.
Qed.

(** A text can be encoded exactly when encoding it raises nothing. *)
Lemma first_surrogates_none (pos : nat) (s : str) :
  first_surrogates pos s = None <-> utf8_encodable s = true.
Proof.
  revert pos; induction s as [|c s IH]; intros pos; simpl; [tauto|].
  destruct (is_surrogate c); simpl; [split; discriminate|apply IH].
Qed.

Lemma utf8_encode_error_none (s : str) :
  utf8_encode_error s = None <-> utf8_encodable s = true.
Proof.
  unfold utf8_encode_error. rewrite <- (first_surrogates_none 0 s).
  destruct (first_surrogates 0 s) as [[[start n] bad]|];
    split; try discriminate; reflexivity.
Qed.

Lemma utf8_encode_error_examples :
  option_map exn_str (utf8_encode_error (lit "rule " ++ [0xD800%N] ++ lit " end"))
  = Some (lit "'utf-8' codec can't encode character '\ud800' in position 5: surrogates not allowed")
  /\ option_map exn_str (utf8_encode_error ([0xD800; 0xD801]%N ++ lit "x"))
     = Some (lit "'utf-8' codec can't encode characters in position 0-1: surrogates not allowed")
  /\ utf8_encode_error (lit "rule X end") = None.
Proof. repeat split. Qed.

Lemma utf8_encode_error_kind (s : str) (e : exn) :
  utf8_encode_error s = Some e -> is_file_not_found e = false.
Proof.
  unfold utf8_encode_error.
  destruct (first_surrogates 0 s) as [[[start n] bad]|]; [|discriminate].
  now intros [= <-].
Qed.

(** What [lstrip] removes is white space, and what it leaves does not start
    with white space. *)
Lemma lstrip_spec (s : str) :
  exists lead, s = lead ++ lstrip s /\ forallb isspace lead = true.
Proof.
  induction s as [|c s (lead & Hs & Hl)]; simpl.
  - now exists [].
  - destruct (isspace c) eqn:Hc.
    + exists (c :: lead); simpl. rewrite Hc, Hl. split; [congruence|reflexivity].
    + now exists [].
Qed.

Lemma lstrip_head (s : str) (c : char) (rest : str) :
  lstrip s = c :: rest -> isspace c = false.
Proof.
  induction s as [|x s IH]; simpl; [discriminate|].
  destruct (isspace x) eqn:Hx; [exact IH|].
  intros [= -> _]. exact Hx.
Qed.

Lemma rstrip_spec (s : str) :
  exists trail, s = rstrip s ++ trail /\ forallb isspace trail = true.
Proof.
  unfold rstrip. destruct (lstrip_spec (rev s)) as (lead & Hs & Hl).
  exists (rev lead). split.
  - rewrite <- rev_app_distr, <- Hs. now rewrite rev_involutive.
  - rewrite forallb_forall in *. intros x Hx. apply Hl. now apply in_rev.
Qed.

Lemma rstrip_last (s : str) (c : char) (init : str) :
  rstrip s = init ++ [c] -> isspace c = false.
Proof.
  unfold rstrip. intros H.
  apply (f_equal (@rev char)) in H.
  rewrite rev_involutive, rev_app_distr in H. simpl in H.
  eapply lstrip_head, H.
Qed.

(** [strip] cuts white space, and only white space, from both ends. *)
Lemma strip_spec (s : str) :
  (exists lead trail,
      s = lead ++ strip s ++ trail
      /\ forallb isspace lead = true /\ forallb isspace trail = true)
  /\ trimmed (strip s).
Proof.
  unfold strip.
  destruct (lstrip_spec s) as (lead & Hs & Hl).
  destruct (rstrip_spec (lstrip s)) as (trail & Ht & Htl).
  split.
  - exists lead, trail. now rewrite <- Ht.
  - split.
    + intros c rest E. rewrite E in Ht. simpl in Ht.
      eapply lstrip_head, Ht.
    + intros c init E. eapply rstrip_last, E.
Qed.

Lemma strip_example : strip (lit "  rule X end  ") = lit "rule X end".
Proof. reflexivity. Qed.

(** The two-character fields of [strftime]. *)
Lemma fmt_02d_digits (n : Z) :
  0 <= n <= 99 ->
  exists a b, fmt_02d n = [a; b] /\ is_digit a = true /\ is_digit b = true.
Proof.
  intros Hn.
  assert (Hall : forallb
            (fun i => match fmt_02d (Z.of_nat i) with
                      | [a; b] => is_digit a && is_digit b
                      | _ => false
                      end) (seq 0 100) = true) by (vm_compute; reflexivity).
  rewrite forallb_forall in Hall.
  specialize (Hall (Z.to_nat n)).
  rewrite Z2Nat.id in Hall by lia.
  assert (Hin : In (Z.to_nat n) (seq 0 100)) by (apply in_seq; lia).
  specialize (Hall Hin).
  destruct (fmt_02d n) as [|a [|b [|? ?]]]; try discriminate.
  apply andb_prop in Hall as [Ha Hb]. now exists a, b.
Qed.

Lemma strftime_shape (d : datetime) :
  valid_datetime d = true ->
  exists m1 m2 d1 d2 h1 h2 n1 n2,
    strftime_m_d_H_M d =
      [m1; m2] ++ lit "_" ++ [d1; d2] ++ lit "_" ++ [h1; h2] ++ lit "_" ++ [n1; n2]
    /\ forallb is_digit [m1; m2; d1; d2; h1; h2; n1; n2] = true.
Proof.
  unfold valid_datetime. intros H.
  repeat (apply andb_prop in H as [H ?]).
  repeat match goal with
         | Hle : (_ <=? _) = true |- _ => apply Z.leb_le in Hle
         end.
  destruct (fmt_02d_digits (month d)) as (m1 & m2 & Em & Hm1 & Hm2); [lia|].
  destruct (fmt_02d_digits (day d)) as (d1 & d2 & Ed & Hd1 & Hd2); [lia|].
  destruct (fmt_02d_digits (hour d)) as (h1 & h2 & Eh & Hh1 & Hh2); [lia|].
  destruct (fmt_02d_digits (minute d)) as (n1 & n2 & En & Hn1 & Hn2); [lia|].
  exists m1, m2, d1, d2, h1, h2, n1, n2.
  unfold strftime_m_d_H_M. rewrite Em, Ed, Eh, En. split; [reflexivity|].
  simpl. now rewrite Hm1, Hm2, Hd1, Hd2, Hh1, Hh2, Hn1, Hn2.
Qed.

(** Matching by derivatives is compositional. *)
Lemma fullmatch_empty (s : str) : fullmatch Empty s = false.
Proof. induction s; simpl; auto. Qed.

Lemma fullmatch_alt (r1 r2 : regex) (s : str) :
  fullmatch (Alt r1 r2) s = fullmatch r1 s || fullmatch r2 s.
Proof.
  revert r1 r2; induction s as [|c s IH]; intros r1 r2; simpl; [reflexivity|].
  apply IH.
Qed.

Lemma fullmatch_seq (r1 r2 : regex) (s1 s2 : str) :
  fullmatch r1 s1 = true -> fullmatch r2 s2 = true ->
  fullmatch (Seq r1 r2) (s1 ++ s2) = true.
Proof.
  revert r1; induction s1 as [|c s1 IH]; intros r1 H1 H2.
  - simpl in H1. destruct s2 as [|c s2]; simpl in *.
    + now rewrite H1, H2.
    + rewrite H1, fullmatch_alt, H2. apply orb_true_r.
  - simpl in H1. simpl. destruct (nullable r1).
    + rewrite fullmatch_alt, IH by assumption. reflexivity.
    + now apply IH.
Qed.

Lemma fullmatch_lit (c : char) : fullmatch (Lit c) [c] = true.
Proof. simpl. now rewrite N.eqb_refl. Qed.

Lemma fullmatch_digit (c : char) : fullmatch Digit [c] = is_digit c.
Proof. simpl. now destruct (is_digit c). Qed.

Lemma fullmatch_re_lit (s : str) : fullmatch (re_lit s) s = true.
Proof.
  induction s as [|c s IH]; [reflexivity|].
  change (fullmatch (Seq (Lit c) (re_lit s)) ([c] ++ s) = true).
  apply fullmatch_seq; [apply fullmatch_lit | exact IH].
Qed.

End PyFacts.

(* ===================================================================== *)
(** * Properties of the HTTP service                                       *)
(* ===================================================================== *)

Module ApiFacts.
Import Py PyFacts Api.

Lemma filename_fullmatch (m1 m2 d1 d2 h1 h2 n1 n2 : char) :
  forallb is_digit [m1; m2; d1; d2; h1; h2; n1; n2] = true ->
  fullmatch filename_pattern
    (lit "generated_rule_"
     ++ ([m1; m2] ++ lit "_" ++ [d1; d2] ++ lit "_" ++ [h1; h2] ++ lit "_" ++ [n1; n2])
     ++ lit ".drl") = true.
Proof.
  intros H. simpl in H.
  repeat (apply andb_prop in H as [? H]).
  change (fullmatch
            (Seq (re_lit (lit "generated_rule_"))
               (Seq Digit (Seq Digit (Seq (Lit 0x5F%N)
               (Seq Digit (Seq Digit (Seq (Lit 0x5F%N)
               (Seq Digit (Seq Digit (Seq (Lit 0x5F%N)
               (Seq Digit (Seq Digit (Seq (re_lit (lit ".drl")) Eps)))))))))))))
            (lit "generated_rule_" ++ [m1] ++ [m2] ++ [0x5F%N]
             ++ [d1] ++ [d2] ++ [0x5F%N] ++ [h1] ++ [h2] ++ [0x5F%N]
             ++ [n1] ++ [n2] ++ lit ".drl" ++ []) = true).
  repeat (apply fullmatch_seq;
          [first [apply fullmatch_re_lit | apply fullmatch_lit
                 | rewrite fullmatch_digit; assumption] |]).
  reflexivity.
Qed.

Lemma len_pos_of_contains (needle hay : str) :
  0 < len needle -> contains needle hay = true -> 0 < len hay.
Proof. intros Hn Hc. apply contains_len in Hc. lia. Qed.

(** C1. With the global pipeline unset, the /generate handler and the /info
    handler both answer 503 and make no call on the pipeline or on the
    auxiliary loaders; no request to /generate makes such a call, and every
    request that passes validation gets the 503. *)
Theorem not_ready_answers_503 (w : World) (Hunset : pipeline w = None) :
  (forall request : GenerateRequest,
      generate_drools_file w request =
        ([], HTTPException 503 (lit "Pipeline not initialized. Check server logs.")))
  /\ get_info w = ([], HTTPException 503 (lit "Pipeline not initialized"))
  /\ (forall b : Body,
        fst (post_generate w b) = []
        /\ (is_Some (validate b) -> status (snd (post_generate w b)) = 503)).
Proof.
  repeat split.
  - intros request. unfold generate_drools_file. now rewrite Hunset.
  - unfold get_info. now rewrite Hunset.
  - unfold post_generate, generate_drools_file. rewrite Hunset.
    now destruct (validate b).
  - intros [request Hv]. unfold post_generate, generate_drools_file.
    now rewrite Hv, Hunset.
Qed.

(** C2, as the service behaves.  For a body whose query is text without a
    lone surrogate: a query shorter than 3 characters, or a k outside
    1..50, is rejected with the 422 validation failure and no call is made;
    a query of at least 3 characters with k (15 when absent) within 1..50
    passes validation and reaches the handler.  A query that holds a lone
    surrogate is rejected whatever its length and k, with no call made, and
    the answer is the server's 500, since the report that quotes the query
    cannot be encoded. *)
Theorem validation_gate (w : World) (b : Body) (q : str)
    (Hq : body_query b = Some q) :
  (utf8_encodable q = true ->
     ((len q < 3 \/ exists n, body_k b = Some n /\ (n < 1 \/ 50 < n)) ->
        post_generate w b = ([], RequestValidationError)
        /\ 400 <= status (snd (post_generate w b)) < 500)
     /\ (3 <= len q -> (forall n, body_k b = Some n -> 1 <= n <= 50) ->
         validate b = Some {| query := q; k := default 15 (body_k b) |}
         /\ post_generate w b =
              (fst (generate_drools_file w
                      {| query := q; k := default 15 (body_k b) |}),
               send (snd (generate_drools_file w
                            {| query := q; k := default 15 (body_k b) |})))))
  /\ (utf8_encodable q = false ->
      validate b = None
      /\ post_generate w b = ([], ServerError)
      /\ status (snd (post_generate w b)) = 500).
Proof.
  split.
  - intros Henc. split.
    + intros Hbad.
      assert (Hv : validate b = None).
      { unfold validate. rewrite Hq, Henc. simpl.
        destruct (Z.leb_spec 3 (len q)) as [Hlen|Hlen]; [|reflexivity].
        destruct Hbad as [Hshort|(n & Hn & Hrange)]; [lia|].
        rewrite Hn.
        destruct (Z.leb_spec 1 n), (Z.leb_spec n 50); simpl;
          try reflexivity; lia. }
      unfold post_generate, report_encodable. rewrite Hv, Hq, Henc. simpl.
      split; [reflexivity|lia].
    + intros Hlen Hk.
      assert (Hv : validate b = Some {| query := q; k := default 15 (body_k b) |}).
      { unfold validate. rewrite Hq, Henc. simpl.
        destruct (Z.leb_spec 3 (len q)) as [_|?]; [|lia].
        destruct (body_k b) as [n|]; [|reflexivity]. simpl.
        specialize (Hk n eq_refl).
        destruct (Z.leb_spec 1 n), (Z.leb_spec n 50); simpl;
          try reflexivity; lia. }
      split; [exact Hv|]. unfold post_generate. rewrite Hv.
      now destruct (generate_drools_file w _).
  - intros Henc.
    assert (Hv : validate b = None)
      by (unfold validate; now rewrite Hq, Henc).
    split; [exact Hv|].
    unfold post_generate, report_encodable. rewrite Hv, Hq, Henc. auto.
Qed.

(** C3. A call of /generate succeeds when the loaders and the pipeline
    return and the trimmed text can be encoded for the response.  It then
    answers 200 with a body that is the generated text cut of white space
    at both ends (and of nothing else), an attachment file name matching
    generated_rule_\d{2}_\d{2}_\d{2}_\d{2}\.drl, and the media type
    application/octet-stream; the text "  rule X end  " gives exactly
    "rule X end". *)
Theorem generate_success_response (w : World) (p : DroolsRAGPipeline)
    (request : GenerateRequest) (form java code : str) (chunks : list Chunk)
    (Hp : pipeline w = Some p)
    (Hform : load_form w = Return form)
    (Hjava : load_java_model w = Return java)
    (Hgen : generate_drools p (query request) form java (k request)
            = Return (code, chunks))
    (Hencodable : utf8_encodable (strip code) = true)
    (Hnow : valid_datetime (now w) = true) :
  exists (r : Response) (filename : str),
    snd (generate_drools_file w request) = Ok r
    /\ resp_content r = strip code
    /\ (exists lead trail,
           code = lead ++ resp_content r ++ trail
           /\ forallb isspace lead = true /\ forallb isspace trail = true)
    /\ trimmed (resp_content r)
    /\ (code = lit "  rule X end  " -> resp_content r = lit "rule X end")
    /\ headers r = [(lit "Content-Disposition",
                     lit "attachment; filename=" ++ filename)]
    /\ fullmatch filename_pattern filename = true
    /\ media_type r = lit "application/octet-stream".
Proof.
  apply utf8_encode_error_none in Hencodable.
  unfold generate_drools_file, generate_body, make_response, invoke, bind, ret.
  rewrite Hp, Hform, Hjava, Hgen, Hencodable.
  eexists. eexists. split; [reflexivity|]. cbn [resp_content headers media_type].
  destruct (strip_spec code) as [Hcut Htrim].
  split; [reflexivity|]. split; [exact Hcut|]. split; [exact Htrim|].
  split; [intros ->; exact strip_example|].
  split; [reflexivity|]. split; [|reflexivity].
  destruct (strftime_shape _ Hnow)
    as (m1 & m2 & d1 & d2 & h1 & h2 & n1 & n2 & -> & Hdigits).
  now apply filename_fullmatch.
Qed.

(** C4. With the pipeline set and both loaders returning text that carries
    their "not found" sentinel, /info answers 200 with form_loaded and
    java_model_loaded false although both texts are non-empty, and reports
    each text's size, whether the index and the metadata are present, and
    the number of metadata entries (0 when the metadata is absent). *)
Theorem info_reports_sentinels (w : World) (p : DroolsRAGPipeline)
    (form java : str)
    (Hp : pipeline w = Some p)
    (Hform : load_form w = Return form)
    (Hjava : load_java_model w = Return java)
    (Hfs : contains (lit "Form content not found") form = true)
    (Hjs : contains (lit "Java model file not found") java = true) :
  get_info w =
    ([CallLoadForm; CallLoadJavaModel],
     Ok {| form_loaded := false;
           form_size := len form;
           java_model_loaded := false;
           java_model_size := len java;
           faiss_index_loaded := bool_decide (is_Some (index p));
           metadata_loaded := bool_decide (is_Some (metadata p));
           metadata_entries :=
             match metadata p with Some l => len l | None => 0 end |})
  /\ 0 < len form /\ 0 < len java.
Proof.
  split; [|split; eapply len_pos_of_contains; eauto; reflexivity].
  unfold get_info, info_body, invoke, bind, ret.
  rewrite Hp, Hform, Hjava, Hfs, Hjs. simpl.
  do 3 f_equal.
  destruct (metadata p) as [l|]; simpl; [|reflexivity].
  destruct (Z.eqb_spec (len l) 0) as [E|E]; simpl; congruence.
Qed.

(** C5. With the pipeline set, when a loader or the pipeline raises, the
    handler stops there: a missing-file error gives 400 and any other
    exception 500, the exception's own text (and so any path it names)
    is carried in the detail, each collaborator has been called at most
    once, and nothing of a result is returned. *)
Theorem generate_failure_response (w : World) (p : DroolsRAGPipeline)
    (request : GenerateRequest) (e : exn)
    (Hp : pipeline w = Some p)
    (Hraise :
       load_form w = Raise e
       \/ exists form, load_form w = Return form
          /\ (load_java_model w = Raise e
              \/ exists java, load_java_model w = Return java
                 /\ generate_drools p (query request) form java (k request)
                    = Raise e)) :
  exists (t : list call) (detail : str),
    generate_drools_file w request
      = (t, HTTPException (if is_file_not_found e then 400 else 500) detail)
    /\ detail = (if is_file_not_found e
                 then lit "Required file not found: "
                 else lit "Error generating Drools code: ") ++ exn_str e
    /\ (forall path, contains path (exn_str e) = true ->
                     contains path detail = true)
    /\ (exists form java,
           t `prefix_of` [CallLoadForm; CallLoadJavaModel;
                          CallGenerateDrools (query request) form java (k request)])
    /\ (forall r, snd (generate_drools_file w request) <> Ok r).
Proof.
  assert (Hshape : exists t form java,
    generate_body w p request = (t, Raise e)
    /\ t `prefix_of` [CallLoadForm; CallLoadJavaModel;
                      CallGenerateDrools (query request) form java (k request)]).
  { unfold generate_body, invoke, bind, ret.
    destruct Hraise as [Hf|(form & Hf & [Hj|(java & Hj & Hg)])].
    - rewrite Hf. exists [CallLoadForm], [], []. split; [reflexivity|].
      now eexists.
    - rewrite Hf, Hj. exists [CallLoadForm; CallLoadJavaModel], form, [].
      split; [reflexivity|]. now eexists.
    - rewrite Hf, Hj, Hg. eexists _, form, java. split; [reflexivity|].
      now exists []. }
  destruct Hshape as (t & form & java & Hbody & Hpre).
  unfold generate_drools_file. rewrite Hp, Hbody.
  exists t. destruct (is_file_not_found e); eexists; (split; [reflexivity|]);
    (split; [reflexivity|]); (split; [intros path; apply contains_app_l|]);
    (split; [now exists form, java|]); intros r; discriminate.
Qed.

(** C9. The chunks the pipeline returns never reach a client: two pipelines
    that agree on everything but the chunks they return give the same
    answers on every route, and the body of a successful /generate answer
    is the generated text, trimmed, and nothing else. *)
Theorem chunks_never_exposed (w : World) (p1 p2 : DroolsRAGPipeline)
    (request : GenerateRequest)
    (Hindex : index p1 = index p2)
    (Hmeta : metadata p1 = metadata p2)
    (Hcode : forall q f j n,
        code_of (generate_drools p1 q f j n) = code_of (generate_drools p2 q f j n)) :
  generate_drools_file (serving w p1) request
    = generate_drools_file (serving w p2) request
  /\ get_info (serving w p1) = get_info (serving w p2)
  /\ health_check (serving w p1) = health_check (serving w p2)
  /\ (forall r, snd (generate_drools_file (serving w p1) request) = Ok r ->
        exists form java code chunks,
          generate_drools p1 (query request) form java (k request)
            = Return (code, chunks)
          /\ r = {| resp_content := strip code;
                    media_type := media_type r;
                    headers := headers r |}).
Proof.
  repeat split.
  - unfold generate_drools_file, generate_body, invoke, bind, ret. simpl.
    destruct (load_form w) as [f|?]; [|reflexivity].
    destruct (load_java_model w) as [j|?]; [|reflexivity].
    specialize (Hcode (query request) f j (k request)).
    destruct (generate_drools p1 _ _ _ _) as [[c1 ch1]|e1],
             (generate_drools p2 _ _ _ _) as [[c2 ch2]|e2];
      simpl in Hcode; try discriminate; now inversion Hcode.
  - unfold get_info, info_body, invoke, bind, ret. simpl.
    now rewrite Hindex, Hmeta.
  - intros r. unfold generate_drools_file, generate_body, invoke, bind, ret.
    simpl.
    destruct (load_form w) as [f|?]; [|destruct (is_file_not_found _); discriminate].
    destruct (load_java_model w) as [j|?];
      [|destruct (is_file_not_found _); discriminate].
    destruct (generate_drools p1 _ _ _ _) as [[c1 ch1]|e1] eqn:Hg;
      [|destruct (is_file_not_found _); discriminate].
    unfold make_response, ret.
    destruct (utf8_encode_error (strip c1)) as [e|]; simpl;
      [destruct (is_file_not_found e); discriminate|].
    intros [= <-]. now exists f, j, c1, ch1.
Qed.

(** C10. The load test of /info is containment: form_loaded is true exactly
    when "Form content not found" occurs nowhere in the form text, and
    java_model_loaded exactly when "Java model file not found" occurs
    nowhere in the model text. *)
Theorem info_loaded_iff_no_occurrence (w : World) (p : DroolsRAGPipeline)
    (form java : str)
    (Hp : pipeline w = Some p)
    (Hform : load_form w = Return form)
    (Hjava : load_java_model w = Return java) :
  exists r : Info,
    snd (get_info w) = Ok r
    /\ (form_loaded r = true <->
        ~ exists pre post, form = pre ++ lit "Form content not found" ++ post)
    /\ (java_model_loaded r = true <->
        ~ exists pre post, java = pre ++ lit "Java model file not found" ++ post).
Proof.
  unfold get_info, info_body, invoke, bind, ret.
  rewrite Hp, Hform, Hjava. eexists. split; [reflexivity|].
  cbn [form_loaded java_model_loaded].
  rewrite !negb_true_iff, !contains_false. split; reflexivity.
Qed.

(** ** The claims on sample worlds *)

Import ApiSamples.

Lemma not_ready_answers_503_witness :
  generate_drools_file unset_world sample_request
    = ([], HTTPException 503 (lit "Pipeline not initialized. Check server logs."))
  /\ get_info unset_world = ([], HTTPException 503 (lit "Pipeline not initialized")).
Proof.
  pose proof (not_ready_answers_503 unset_world eq_refl) as (Hgen & Hinfo & _).
  split; [apply Hgen | exact Hinfo].
Defined.

Lemma validation_gate_witness :
  post_generate ready_world short_body = ([], RequestValidationError)
  /\ post_generate ready_world wide_body = ([], RequestValidationError)
  /\ validate plain_body = Some sample_request
  /\ post_generate ready_world surrogate_body = ([], ServerError).
Proof.
  split; [|split; [|split]].
  - apply (validation_gate ready_world short_body (lit "ab") eq_refl);
      [reflexivity|].
    left. vm_compute. reflexivity.
  - apply (validation_gate ready_world wide_body (lit "discount rule") eq_refl);
      [reflexivity|].
    right. exists 51. split; [reflexivity|]. right. lia.
  - apply (validation_gate ready_world plain_body (lit "discount rule") eq_refl);
      [reflexivity| |].
    + vm_compute. discriminate.
    + intros n. discriminate.
  - apply (validation_gate ready_world surrogate_body
             ([0xD800%N] ++ lit "abc") eq_refl).
    reflexivity.
Defined.

(** C2 as stated fails: a query of four characters with k absent does not
    pass validation when its first character is a lone surrogate, and a
    query of one such character, although shorter than 3, is answered with
    a 500, not with a client error. *)
Lemma validation_refuses_lone_surrogate :
  (body_query surrogate_body = Some ([0xD800%N] ++ lit "abc")
   /\ 3 <= len ([0xD800%N] ++ lit "abc")
   /\ body_k surrogate_body = None
   /\ validate surrogate_body = None)
  /\ (body_query short_surrogate_body = Some [0xD800%N]
      /\ len [0xD800%N] < 3
      /\ status (snd (post_generate ready_world short_surrogate_body)) = 500
      /\ ~ (400 <= status (snd (post_generate ready_world short_surrogate_body))
            < 500)).
Proof.
  split.
  - split; [reflexivity|]. split; [vm_compute; discriminate|].
    split; reflexivity.
  - split; [reflexivity|]. split; [reflexivity|]. split; [reflexivity|].
    vm_compute. intros [_ H]. discriminate H.
Qed.

Lemma generate_success_response_witness :
  exists (r : Response) (filename : str),
    snd (generate_drools_file ready_world sample_request) = Ok r
    /\ resp_content r = lit "rule X end"
    /\ fullmatch filename_pattern filename = true
    /\ headers r = [(lit "Content-Disposition",
                     lit "attachment; filename=" ++ filename)].
Proof.
  destruct (generate_success_response ready_world sample_pipeline sample_request
              (lit "{fields: []}") (lit "class Model {}")
              (lit "  rule X end  ") sample_chunks
              eq_refl eq_refl eq_refl eq_refl eq_refl eq_refl)
    as (r & filename & Hok & _ & _ & _ & Hex & Hhd & Hfn & _).
  exists r, filename. auto.
Defined.

Lemma info_reports_sentinels_witness :
  snd (get_info sentinel_world)
  = Ok {| form_loaded := false; form_size := 23;
          java_model_loaded := false; java_model_size := 26;
          faiss_index_loaded := true; metadata_loaded := true;
          metadata_entries := 2 |}.
Proof.
  pose proof (info_reports_sentinels sentinel_world sample_pipeline
                (lit "Form content not found.")
                (lit "Java model file not found.")
                eq_refl eq_refl eq_refl eq_refl eq_refl) as (H & _).
  rewrite H. reflexivity.
Defined.

Lemma generate_failure_response_witness :
  exists t,
    generate_drools_file missing_file_world sample_request
    = (t, HTTPException 400
            (lit "Required file not found: [Errno 2] No such file or directory: 'models/Model.java'")).
Proof.
  destruct (generate_failure_response missing_file_world sample_pipeline
              sample_request
              {| is_file_not_found := true;
                 exn_str := lit "[Errno 2] No such file or directory: 'models/Model.java'" |}
              eq_refl
              (or_intror (ex_intro _ (lit "{fields: []}")
                            (conj eq_refl (or_introl eq_refl)))))
    as (t & detail & Hrun & -> & _).
  exists t. exact Hrun.
Defined.

Lemma chunks_never_exposed_witness :
  generate_drools_file (serving ready_world sample_pipeline) sample_request
  = generate_drools_file (serving ready_world bare_pipeline) sample_request.
Proof.
  apply (chunks_never_exposed ready_world sample_pipeline bare_pipeline
           sample_request eq_refl eq_refl (fun _ _ _ _ => eq_refl)).
Defined.

Lemma info_loaded_iff_no_occurrence_witness :
  exists r : Info, snd (get_info quoting_world) = Ok r /\ form_loaded r = false.
Proof.
  destruct (info_loaded_iff_no_occurrence quoting_world sample_pipeline
              (lit "label: Form content not found (shown when empty)")
              (lit "class Model {}") eq_refl eq_refl eq_refl)
    as (r & Hok & Hform & _).
  exists r. split; [exact Hok|].
  destruct (form_loaded r); [|reflexivity].
  exfalso. apply (proj1 Hform eq_refl).
  exists (lit "label: "), (lit " (shown when empty)"). reflexivity.
Defined.

End ApiFacts.

(* ===================================================================== *)
(** * Properties of the bootstrap script                                   *)
(* ===================================================================== *)

Module SetupFacts.
Import Py PyFacts Setup.

(** ** Paths *)

Lemma parent_child (d : path) (x : str) : parent (d ++ [x]) = d.
Proof. apply removelast_last. Qed.

Lemma child_neq (d : path) (x : str) : d ++ [x] <> d.
Proof.
  intros E. apply (f_equal (@length str)) in E.
  rewrite length_app in E. simpl in E. lia.
Qed.

(** ** Nodes that stay *)

Lemma same_kind_refl (n : node) : same_kind n n = true.
Proof. now destruct n. Qed.

Lemma same_kind_trans (a b c : node) :
  same_kind a b = true -> same_kind b c = true -> same_kind a c = true.
Proof. destruct a, b, c; simpl; congruence. Qed.

Lemma kind_le_refl (m : gmap path node) : kind_le m m.
Proof. intros p n H. exists n. auto using same_kind_refl. Qed.

Lemma kind_le_trans (m1 m2 m3 : gmap path node) :
  kind_le m1 m2 -> kind_le m2 m3 -> kind_le m1 m3.
Proof.
  intros H12 H23 p n H.
  destruct (H12 p n H) as (n2 & H2 & K2).
  destruct (H23 p n2 H2) as (n3 & H3 & K3).
  exists n3. eauto using same_kind_trans.
Qed.

Lemma kind_le_insert_file (m : gmap path node) (p : path) (c : str) (mode : Z) :
  m !! p <> Some Dir -> kind_le m (<[p := File c mode]> m).
Proof.
  intros Hp q n Hq. destruct (decide (p = q)) as [->|Hne].
  - rewrite lookup_insert_eq. destruct n; [congruence|]. eexists; eauto.
  - rewrite lookup_insert_ne by assumption. exists n. auto using same_kind_refl.
Qed.

Lemma kind_le_some (m m' : gmap path node) (p : path) :
  kind_le m m' -> is_Some (m !! p) -> is_Some (m' !! p).
Proof. intros H [n Hn]. destruct (H p n Hn) as (n' & Hn' & _). eauto. Qed.

Lemma kind_le_dir (m m' : gmap path node) (p : path) :
  kind_le m m' -> m !! p = Some Dir -> m' !! p = Some Dir.
Proof.
  intros H Hn. destruct (H p _ Hn) as (n' & Hn' & K).
  destruct n'; [assumption|discriminate].
Qed.

Lemma kind_le_file (m m' : gmap path node) (p : path) :
  kind_le m m' -> (exists c mo, m !! p = Some (File c mo)) ->
  exists c mo, m' !! p = Some (File c mo).
Proof.
  intros H (c & mo & Hn). destruct (H p _ Hn) as (n' & Hn' & K).
  destruct n'; [discriminate|eauto].
Qed.

Lemma set_up_kind_le (h : Host) (m m' : gmap path node) :
  set_up h m -> kind_le m m' -> set_up h m'.
Proof.
  intros [] Hle. constructor;
    eauto using kind_le_some, kind_le_dir, kind_le_file.
Qed.


(** ** No step removes a node or changes its kind *)

Lemma keeps_ret {A : Type} (a : A) : keeps (ret a).
Proof. intros st st' r [= <- _]. apply kind_le_refl. Qed.

Lemma keeps_bind {A B : Type} (m : M A) (f : A -> M B) :
  keeps m -> (forall a, keeps (f a)) -> keeps (bind m f).
Proof.
  intros Hm Hf st st' r. unfold bind.
  destruct (m st) as [st1 [a|why]] eqn:E; intros H.
  - eapply kind_le_trans; [eapply Hm, E | eapply Hf, H].
  - injection H as <- _. eapply Hm, E.
Qed.

Lemma keeps_print (s : str) : keeps (print s).
Proof. intros st st' r [= <- _]. apply kind_le_refl. Qed.

Lemma keeps_sys_exit {A : Type} (code : Z) : keeps (@sys_exit A code).
Proof. intros st st' r [= <- _]. apply kind_le_refl. Qed.

Lemma keeps_exists (p : path) : keeps (exists_ p).
Proof. intros st st' r [= <- _]. apply kind_le_refl. Qed.

Lemma keeps_write_text (h : Host) (p : path) (c : str) : keeps (write_text h p c).
Proof.
  intros st st' r. unfold write_text.
  destruct (fs st !! parent p) as [[|? ?]|];
    [destruct (fs st !! p) as [[|? ?]|] eqn:Ep|..]; intros [= <- _]; simpl;
    try apply kind_le_refl; apply kind_le_insert_file; congruence.
Qed.

Lemma keeps_chmod (h : Host) (p : path) (mode : Z) : keeps (chmod h p mode).
Proof.
  intros st st' r. unfold chmod.
  destruct (fs st !! p) as [[|? ?]|] eqn:Ep; intros [= <- _]; simpl;
    try apply kind_le_refl; apply kind_le_insert_file; congruence.
Qed.

Lemma keeps_input (h : Host) (prompt : str) : keeps (input_ h prompt).
Proof.
  intros st st' r. unfold input_.
  destruct (input h prompt); intros [= <- _]; apply kind_le_refl.
Qed.

Section WellBehaved.
Variable h : Host.
Hypothesis Hwb : well_behaved h.

Lemma keeps_subprocess_run (command : list str) (dir : option path) :
  keeps (subprocess_run h command dir).
Proof.
  intros st st' r. unfold subprocess_run.
  pose proof (spawn_keeps h Hwb command dir (fs st)) as Hk.
  destruct (spawn h command dir (fs st)) as [after [c|e]]; simpl in Hk;
    [destruct (returncode c =? 0)|]; intros [= <- _]; exact Hk.
Qed.

Lemma keeps_run_command (command : list str) (dir : option path) :
  keeps (run_command h command dir).
Proof.
  apply keeps_bind; [apply keeps_subprocess_run|].
  intros [c|e]; [apply keeps_ret|].
  apply keeps_bind; [apply keeps_print|intros; apply keeps_sys_exit].
Qed.

Lemma keeps_venv_create (d : path) : keeps (venv_create_ h d).
Proof.
  intros st st' r. unfold venv_create_.
  pose proof (venv_keeps h Hwb d (fs st)) as Hk.
  destruct (venv_create h d (fs st)) as [after [[]|e]]; simpl in Hk;
    intros [= <- _]; exact Hk.
Qed.

Lemma keeps_install_requirements (pd py : path) :
  keeps (install_requirements h pd py).
Proof.
  unfold install_requirements.
  repeat first
    [ apply keeps_run_command
    | apply keeps_exists | apply keeps_print | apply keeps_write_text
    | apply keeps_ret
    | match goal with |- keeps (if ?b then _ else _) => destruct b end
    | apply keeps_bind; [|intros] ].
Qed.

Lemma keeps_create_env_file (pd : path) : keeps (create_env_file h pd).
Proof.
  unfold create_env_file.
  repeat first
    [ apply keeps_bind; [|intros]
    | apply keeps_exists | apply keeps_print | apply keeps_write_text
    | apply keeps_input | apply keeps_ret
    | match goal with |- keeps (if ?b then _ else _) => destruct b end ].
Qed.

Lemma keeps_create_run_script (pd : path) : keeps (create_run_script h pd).
Proof.
  unfold create_run_script, run_script.
  destruct (is_nt h); simpl;
  repeat first
    [ apply keeps_bind; [|intros]
    | apply keeps_print | apply keeps_write_text | apply keeps_chmod
    | apply keeps_ret ].
Qed.
End WellBehaved.


(** ** What a step that completes has left on disk *)

Lemma bind_val {A B : Type} (m : M A) (f : A -> M B) (st st' : state) (b : B) :
  bind m f st = (st', Val b) ->
  exists st1 a, m st = (st1, Val a) /\ f a st1 = (st', Val b).
Proof.
  unfold bind. destruct (m st) as [st1 [a|why]]; [eauto|discriminate].
Qed.

Lemma print_run (s : str) (st st' : state) (r : res unit) :
  print s st = (st', r) -> fs st' = fs st /\ trace st' = trace st /\ r = Val tt.
Proof. now intros [= <- <-]. Qed.

Lemma exists_run (p : path) (st st' : state) (b : bool) :
  exists_ p st = (st', Val b) ->
  st' = st /\ (b = true <-> is_Some (fs st !! p)).
Proof.
  intros [= <- <-]. split; [reflexivity|]. apply bool_decide_eq_true.
Qed.

Lemma write_text_val (h : Host) (p : path) (c : str) (st st' : state) (u : unit) :
  write_text h p c st = (st', Val u) ->
  fs st !! parent p = Some Dir
  /\ exists mode, fs st' = <[p := File c mode]> (fs st).
Proof.
  unfold write_text.
  destruct (fs st !! parent p) as [[|? ?]|]; [|discriminate..].
  destruct (fs st !! p) as [[|? ?]|]; [discriminate|..];
    intros [= <-]; simpl; eauto.
Qed.

Tactic Notation "inv_bind" hyp(H) "as" ident(st1) ident(a) ident(H1) :=
  apply bind_val in H as (st1 & a & H1 & H).

Section FirstRun.
Variable h : Host.
Hypothesis Hwb : well_behaved h.

Lemma clone_repository_val (st st' : state) (p : path) :
  clone_repository h st = (st', Val p) -> p = project_dir.
Proof.
  unfold clone_repository. intros H.
  inv_bind H as s1 there H1. inv_bind H as s2 u H2.
  now injection H as _ <-.
Qed.

Lemma create_virtual_environment_val (pd : path) (st st' : state) (v : path) :
  create_virtual_environment h pd st = (st', Val v) ->
  v = pd ++ [lit "venv"] /\ is_Some (fs st' !! v).
Proof.
  unfold create_virtual_environment. intros H.
  inv_bind H as s1 there H1. apply exists_run in H1 as [-> Hthere].
  destruct there.
  - inv_bind H as s2 u H2. apply print_run in H2 as (Hfs & _).
    injection H as <- <-. split; [reflexivity|].
    rewrite Hfs. now apply Hthere.
  - inv_bind H as s2 u H2. inv_bind H as s3 u' H3.
    injection H as <- <-. split; [reflexivity|].
    unfold venv_create_ in H3.
    destruct (venv_create h _ (fs s2)) as [after [[]|e]] eqn:Ev;
      [|discriminate].
    injection H3 as <-. simpl.
    eapply venv_creates; eauto.
Qed.

Lemma install_requirements_val (pd py : path) (st st' : state) :
  install_requirements h pd py st = (st', Val tt) ->
  is_Some (fs st' !! (pd ++ [lit "requirements.txt"])).
Proof.
  unfold install_requirements. intros H.
  inv_bind H as s1 there H1. apply exists_run in H1 as [-> Hthere].
  inv_bind H as s2 u H2.
  assert (Hreq : is_Some (fs s2 !! (pd ++ [lit "requirements.txt"]))).
  { destruct there; simpl in H2.
    - injection H2 as <- _. now apply Hthere.
    - inv_bind H2 as s3 u' H3.
      apply write_text_val in H2 as (_ & mode & ->).
      rewrite lookup_insert_eq. eauto. }
  eapply kind_le_some; [|exact Hreq].
  revert H. generalize (Val (A:=unit) tt). intros r H. clear Hreq H2.
  revert s2 st' r H.
  change (keeps
    (print (lit "Installing requirements...") ;;
     let* _ := run_command h [path_str h py; lit "-m"; lit "pip";
                              lit "install"; lit "--upgrade"; lit "pip"] None in
     let* _ := run_command h [path_str h py; lit "-m"; lit "pip";
                              lit "install"; lit "-r"; lit "requirements.txt"]
                           (Some pd) in
     ret tt)).
  repeat first
    [ apply keeps_run_command; assumption | apply keeps_print | apply keeps_ret
    | apply keeps_bind; [|intros] ].
Qed.

Lemma create_env_file_val (pd : path) (st st' : state) :
  create_env_file h pd st = (st', Val tt) ->
  is_Some (fs st' !! (pd ++ [lit ".env"])).
Proof.
  unfold create_env_file. intros H.
  inv_bind H as s1 there H1. apply exists_run in H1 as [-> Hthere].
  destruct there.
  - apply print_run in H as (-> & _). now apply Hthere.
  - inv_bind H as s2 line H2. inv_bind H as s3 u H3.
    apply print_run in H as (-> & _).
    apply write_text_val in H3 as (_ & mode & ->).
    rewrite lookup_insert_eq. eauto.
Qed.

Lemma create_run_script_val (pd : path) (st st' : state) :
  create_run_script h pd st = (st', Val tt) ->
  fs st' !! pd = Some Dir
  /\ exists mode,
       fs st' !! snd (run_script h pd) = Some (File (fst (run_script h pd)) mode)
       /\ (is_nt h = false -> mode = mode_0o755).
Proof.
  unfold create_run_script, run_script.
  destruct (is_nt h); cbn [negb fst snd]; intros H;
    inv_bind H as s1 u1 H1; inv_bind H as s2 u2 H2;
    apply print_run in H as (-> & _);
    apply write_text_val in H1 as (Hdir & mode & Hfs);
    rewrite parent_child in Hdir.
  - injection H2 as <-. rewrite Hfs.
    rewrite lookup_insert_ne by apply child_neq.
    rewrite lookup_insert_eq. split; [assumption|]. eexists; split; eauto.
    discriminate.
  - unfold chmod in H2. rewrite Hfs, lookup_insert_eq in H2.
    injection H2 as <-. simpl.
    rewrite lookup_insert_eq, !lookup_insert_ne by apply child_neq.
    eauto.
Qed.

(** A run that completes leaves the effects of steps 2 to 6 on disk. *)
Lemma main_val_set_up (st st' : state) :
  main h st = (st', Val tt) -> set_up h (fs st').
Proof.
  unfold main. intros H.
  inv_bind H as s0 u0 H0. inv_bind H as s1 c1 H1.
  inv_bind H as s2 pd H2. apply clone_repository_val in H2 as ->.
  inv_bind H as s3 vd H3. apply create_virtual_environment_val in H3 as [-> Hvenv].
  inv_bind H as s4 u4 H4. destruct u4. pose proof H4 as Hinst.
  apply install_requirements_val in H4 as Hreq.
  inv_bind H as s5 u5 H5. destruct u5. pose proof H5 as Henvrun.
  apply create_env_file_val in H5 as Henv.
  inv_bind H as s6 u6 H6. destruct u6. pose proof H6 as Hscript.
  apply create_run_script_val in H6 as (Hdir & mode & Hfile & _).
  assert (Hfs : fs st' = fs s6).
  { inv_bind H as s7 u7 H7. apply print_run in H7 as (<- & _).
    inv_bind H as s8 u8 H8. apply print_run in H8 as (<- & _).
    inv_bind H as s9 u9 H9. apply print_run in H9 as (<- & _).
    inv_bind H as s10 u10 H10. apply print_run in H10 as (<- & _).
    inv_bind H as s11 u11 H11.
    destruct (is_nt h); apply print_run in H11 as (<- & _);
      now apply print_run in H as (-> & _). }
  rewrite Hfs.
  apply keeps_install_requirements in Hinst; [|assumption].
  apply keeps_create_env_file in Henvrun.
  apply keeps_create_run_script in Hscript.
  constructor; eauto.
  - eapply kind_le_some; [|exact Hvenv].
    eauto using kind_le_trans.
  - eapply kind_le_some; [|exact Hreq]. eauto using kind_le_trans.
  - eapply kind_le_some; [|exact Henv]. eauto.
Qed.
End FirstRun.


(** ** A run on a machine that is already set up *)

Lemma commands_app (t1 t2 : list event) :
  commands (t1 ++ t2) = commands t1 ++ commands t2.
Proof.
  induction t1 as [|[] t1 IH]; simpl; auto. now rewrite IH.
Qed.


Section Rerun.
Variable h : Host.
Hypothesis Hwb : well_behaved h.

Lemma rerun_ret {A : Type} (a : A) : rerun h [] (eq a) (ret a).
Proof.
  intros st st' r _ [= <- <-]. exists []. rewrite app_nil_r.
  split; [reflexivity|]. split; [constructor|]. split; [reflexivity|].
  split; [intros b [= <-]; auto | eauto].
Qed.

Lemma rerun_weaken {A : Type} (cmds : list (list str * option path))
    (R R' : A -> Prop) (m : M A) :
  (forall a, R a -> R' a) -> rerun h cmds R m -> rerun h cmds R' m.
Proof.
  intros HR Hm st st' r Hs E.
  destruct (Hm st st' r Hs E) as (t & Ht & Hl & Hp & Hv & Hok).
  exists t. split; [assumption|]. split; [assumption|].
  split; [assumption|]. split; [|assumption].
  intros a Ha. destruct (Hv a Ha); auto.
Qed.

Lemma rerun_bind {A B : Type} (c1 c2 : list (list str * option path))
    (R1 : A -> Prop) (R2 : B -> Prop) (m : M A) (f : A -> M B) :
  rerun h c1 R1 m -> keeps m ->
  (forall a, R1 a -> rerun h c2 R2 (f a)) ->
  rerun h (c1 ++ c2) R2 (bind m f).
Proof.
  intros Hm Hk Hf st st' r Hs. unfold bind.
  destruct (m st) as [st1 [a|why]] eqn:E; intros H.
  - destruct (Hm _ _ _ Hs E) as (t1 & Ht1 & Hl1 & Hp1 & Hv1 & Hok1).
    destruct (Hv1 a eq_refl) as [HR1 Hc1].
    assert (Hs1 : set_up h (fs st1))
      by (eapply set_up_kind_le; [exact Hs | eapply Hk, E]).
    destruct (Hf a HR1 _ _ _ Hs1 H) as (t2 & Ht2 & Hl2 & Hp2 & Hv2 & Hok2).
    exists (t1 ++ t2). rewrite Ht2, Ht1, <- app_assoc, commands_app, Hc1.
    split; [reflexivity|]. split; [now apply Forall_app|].
    split; [now apply prefix_app|]. split.
    + intros b Hb. destruct (Hv2 b Hb) as [? ->]. auto.
    + intros Hok. apply Forall_app in Hok as [_ Hok]. auto.
  - injection H as <- <-.
    destruct (Hm _ _ _ Hs E) as (t1 & Ht1 & Hl1 & Hp1 & Hv1 & Hok1).
    exists t1. split; [assumption|]. split; [assumption|].
    split; [now apply prefix_app_r|]. split; [discriminate|].
    intros Hok. destruct (Hok1 Hok); discriminate.
Qed.

Lemma rerun_seq {A B : Type} (cmds : list (list str * option path))
    (R1 : A -> Prop) (R2 : B -> Prop) (m : M A) (f : A -> M B) :
  rerun h [] R1 m -> keeps m ->
  (forall a, R1 a -> rerun h cmds R2 (f a)) ->
  rerun h cmds R2 (bind m f).
Proof. intros. change cmds with ([] ++ cmds). eapply rerun_bind; eauto. Qed.

Lemma rerun_print (s : str) : rerun h [] (fun _ => True) (print s).
Proof.
  intros st st' r _ [= <- <-]. exists []. simpl. rewrite app_nil_r.
  split; [reflexivity|]. split; [constructor|]. split; [reflexivity|].
  split; [intros b _; auto | eauto].
Qed.

Lemma rerun_exists (p : path) :
  (forall m, set_up h m -> is_Some (m !! p)) ->
  rerun h [] (eq true) (exists_ p).
Proof.
  intros Hp st st' r Hs [= <- <-]. exists []. rewrite app_nil_r.
  split; [reflexivity|]. split; [constructor|]. split; [reflexivity|].
  split; [|eauto].
  intros a [= <-]. split; [|reflexivity].
  symmetry. apply bool_decide_eq_true. auto.
Qed.

Lemma rerun_run_command (command : list str) (dir : option path) :
  rerun h [(command, dir)] (fun _ => True) (run_command h command dir).
Proof.
  intros st st' r _. unfold run_command, bind, subprocess_run.
  destruct (spawn h command dir (fs st)) as [after [c|e]].
  - destruct (returncode c =? 0) eqn:Erc; intros [= <- <-];
      (eexists [_]; split; [reflexivity|]);
      (split; [repeat constructor|]); (split; [reflexivity|]);
      (split; [intros a [= <-]; auto|]); eauto.
    intros Hok. apply Forall_cons in Hok as [(c' & [= <-] & Hrc) _].
    rewrite Hrc in Erc. discriminate.
  - intros [= <- <-]. eexists [_]. split; [reflexivity|].
    split; [repeat constructor|]. split; [reflexivity|].
    split; [discriminate|].
    intros Hok. apply Forall_cons in Hok as [(c' & [=] & _) _].
Qed.

Lemma rerun_clone_repository :
  rerun h [] (eq project_dir) (clone_repository h).
Proof.
  unfold clone_repository.
  eapply rerun_seq; [apply rerun_exists | apply keeps_exists |].
  { intros m Hs. exists Dir. exact (has_project h m Hs). }
  intros there <-.
  eapply rerun_seq; [apply rerun_print | apply keeps_print |].
  intros _ _. apply rerun_ret.
Qed.

Lemma rerun_create_virtual_environment :
  rerun h [] (eq venv_dir) (create_virtual_environment h project_dir).
Proof.
  unfold create_virtual_environment.
  eapply rerun_seq; [apply rerun_exists | apply keeps_exists |].
  { intros m Hs. apply (has_venv h m Hs). }
  intros there <-.
  eapply rerun_seq; [apply rerun_print | apply keeps_print |].
  intros _ _. apply rerun_ret.
Qed.

Lemma rerun_install_requirements :
  rerun h [pip_upgrade h; pip_install h] (fun _ => True)
    (install_requirements h project_dir (get_venv_python h venv_dir)).
Proof.
  unfold install_requirements.
  eapply rerun_seq; [apply rerun_exists | apply keeps_exists |].
  { intros m Hs. apply (has_requirements h m Hs). }
  intros there <-. cbn [negb].
  eapply rerun_seq; [apply rerun_ret | apply keeps_ret |].
  intros _ _.
  eapply rerun_seq; [apply rerun_print | apply keeps_print |].
  intros _ _.
  eapply (rerun_bind [pip_upgrade h] [pip_install h]);
    [apply rerun_run_command | now apply keeps_run_command |].
  intros _ _.
  eapply (rerun_bind [pip_install h] []);
    [apply rerun_run_command | now apply keeps_run_command |].
  intros _ _. eapply rerun_weaken; [|apply rerun_ret]. auto.
Qed.

Lemma rerun_create_env_file :
  rerun h [] (fun _ => True) (create_env_file h project_dir).
Proof.
  unfold create_env_file.
  eapply rerun_seq; [apply rerun_exists | apply keeps_exists |].
  { intros m Hs. apply (has_env h m Hs). }
  intros there <-. apply rerun_print.
Qed.

Lemma rerun_create_run_script :
  rerun h [] (fun _ => True) (create_run_script h project_dir).
Proof.
  intros st st' r Hs.
  destruct (has_script h _ Hs) as (c0 & mode0 & Hfile).
  pose proof (has_project h _ Hs) as Hdir.
  unfold launch_script_only.
  unfold create_run_script, run_script in *.
  destruct (is_nt h) eqn:Ent; cbn [negb fst snd] in *;
    unfold bind, write_text, chmod, ret, print;
    rewrite parent_child, Hdir, Hfile; simpl;
    rewrite ?lookup_insert_eq; intros [= <- <-]; simpl.
  - eexists [_]. split; [reflexivity|].
    split; [repeat constructor|]. split; [reflexivity|].
    split; [intros a _; auto|]. eauto.
  - eexists [_; _]. rewrite <- app_assoc. split; [reflexivity|].
    split; [repeat constructor; auto|]. split; [reflexivity|].
    split; [intros a _; auto|]. eauto.
Qed.

Lemma rerun_main :
  rerun h [git_version; pip_upgrade h; pip_install h] (fun _ => True) (main h).
Proof.
  unfold main.
  eapply rerun_seq; [apply rerun_print | apply keeps_print |].
  intros _ _.
  eapply (rerun_bind [git_version] [pip_upgrade h; pip_install h]);
    [apply rerun_run_command | now apply keeps_run_command |].
  intros _ _.
  eapply rerun_seq; [apply rerun_clone_repository | |].
  { unfold clone_repository.
    repeat first
      [ apply keeps_run_command; assumption
      | apply keeps_exists | apply keeps_print | apply keeps_ret
      | match goal with |- keeps (if ?b then _ else _) => destruct b end
      | apply keeps_bind; [|intros] ]. }
  intros pd <-.
  eapply rerun_seq; [apply rerun_create_virtual_environment | |].
  { unfold create_virtual_environment.
    repeat first
      [ apply keeps_venv_create; assumption
      | apply keeps_exists | apply keeps_print | apply keeps_ret
      | match goal with |- keeps (if ?b then _ else _) => destruct b end
      | apply keeps_bind; [|intros] ]. }
  intros vd <-.
  eapply (rerun_bind [pip_upgrade h; pip_install h] []);
    [apply rerun_install_requirements
    | now apply keeps_install_requirements |].
  intros _ _.
  eapply rerun_seq;
    [apply rerun_create_env_file | apply keeps_create_env_file |].
  intros _ _.
  eapply rerun_seq;
    [apply rerun_create_run_script | apply keeps_create_run_script |].
  intros _ _.
  repeat (eapply rerun_seq; [apply rerun_print | apply keeps_print |];
          intros _ _).
  eapply rerun_seq; [| |intros _ _; apply rerun_print].
  - destruct (is_nt h); apply rerun_print.
  - destruct (is_nt h); apply keeps_print.
Qed.
End Rerun.


(** ** A command that fails ends the run *)


Lemma snoc_unique {A : Type} (P : A -> Prop) (pre post t0 : list A) (x ev : A) :
  pre ++ x :: post = t0 ++ [ev] -> Forall P t0 -> ~ P x ->
  pre = t0 /\ x = ev /\ post = [].
Proof.
  revert t0; induction pre as [|a pre IH]; intros [|y t0] E Ht0 Hx; simpl in E.
  - now injection E as -> ->.
  - injection E as -> _. now apply Forall_cons in Ht0 as [? _].
  - injection E as _ E. now destruct pre.
  - injection E as -> E. apply Forall_cons in Ht0 as [_ Ht0].
    destruct (IH _ E Ht0 Hx) as (-> & -> & ->). auto.
Qed.

Section FailFast.
Variable h : Host.

Lemma fail_fast_quiet {A : Type} (m : M A) :
  (forall st st' r, m st = (st', r) ->
     exists t, trace st' = trace st ++ t /\ clean t) ->
  fail_fast h m.
Proof.
  intros Hm st st' r E. destruct (Hm _ _ _ E) as (t & Ht & Hc). eauto.
Qed.

Lemma fail_fast_ret {A : Type} (a : A) : fail_fast h (ret a).
Proof.
  apply fail_fast_quiet. intros st st' r [= <- _]. exists [].
  rewrite app_nil_r. split; [reflexivity|constructor].
Qed.

Lemma fail_fast_print (s : str) : fail_fast h (print s).
Proof.
  apply fail_fast_quiet. intros st st' r [= <- _]. exists []. simpl.
  rewrite app_nil_r. split; [reflexivity|constructor].
Qed.

Lemma fail_fast_exists (p : path) : fail_fast h (exists_ p).
Proof.
  apply fail_fast_quiet. intros st st' r [= <- _]. exists [].
  rewrite app_nil_r. split; [reflexivity|constructor].
Qed.

Lemma fail_fast_write_text (p : path) (c : str) : fail_fast h (write_text h p c).
Proof.
  apply fail_fast_quiet. intros st st' r. unfold write_text.
  destruct (fs st !! parent p) as [[|? ?]|];
    [destruct (fs st !! p) as [[|? ?]|]|..]; intros [= <- _];
    eexists [_]; (split; [reflexivity|]); now repeat constructor.
Qed.

Lemma fail_fast_chmod (p : path) (mode : Z) : fail_fast h (chmod h p mode).
Proof.
  apply fail_fast_quiet. intros st st' r. unfold chmod.
  destruct (fs st !! p) as [[|? ?]|]; intros [= <- _];
    eexists [_]; (split; [reflexivity|]); now repeat constructor.
Qed.

Lemma fail_fast_input (prompt : str) : fail_fast h (input_ h prompt).
Proof.
  apply fail_fast_quiet. intros st st' r. unfold input_.
  destruct (input h prompt); intros [= <- _];
    eexists [_]; (split; [reflexivity|]); now repeat constructor.
Qed.

Lemma fail_fast_venv_create (d : path) : fail_fast h (venv_create_ h d).
Proof.
  apply fail_fast_quiet. intros st st' r. unfold venv_create_.
  destruct (venv_create h d (fs st)) as [after [[]|e]]; intros [= <- _];
    eexists [_]; (split; [reflexivity|]); now repeat constructor.
Qed.

Lemma fail_fast_bind {A B : Type} (m : M A) (f : A -> M B) :
  fail_fast h m -> (forall a, fail_fast h (f a)) -> fail_fast h (bind m f).
Proof.
  intros Hm Hf st st' r. unfold bind.
  destruct (m st) as [st1 [a|why]] eqn:E; intros H.
  - destruct (Hm _ _ _ E) as (t1 & Ht1 & [Hc1|(t0 & ev & -> & _ & Hfail & Hstop)]).
    + destruct (Hf a _ _ _ H) as (t2 & Ht2 & [Hc2|(t0 & ev & -> & Hc0 & Hfail & Hstop)]).
      * exists (t1 ++ t2). rewrite Ht2, Ht1, <- app_assoc.
        split; [reflexivity|]. left. now apply Forall_app.
      * exists ((t1 ++ t0) ++ [ev]). rewrite Ht2, Ht1, <- !app_assoc.
        split; [reflexivity|]. right. exists (t1 ++ t0), ev.
        rewrite <- app_assoc.
        split; [reflexivity|]. split; [now apply Forall_app|]. auto.
    + destruct ev as [? ? [c|?] ?| | | |]; try discriminate.
      destruct Hstop as (Habs & _). discriminate.
  - injection H as <- <-.
    destruct (Hm _ _ _ E) as (t1 & Ht1 & [Hc1|(t0 & ev & -> & Hc0 & Hfail & Hstop)]).
    + exists t1. auto.
    + eexists. split; [exact Ht1|]. right. exists t0, ev.
      split; [reflexivity|]. split; [assumption|]. split; [assumption|].
      destruct ev as [? ? [c|?] ?| | | |]; try discriminate.
      destruct Hstop as ([= ->] & ? & ?). repeat split; assumption.
Qed.

Lemma fail_fast_run_command (command : list str) (dir : option path) :
  fail_fast h (run_command h command dir).
Proof.
  intros st st' r. unfold run_command, bind, subprocess_run.
  destruct (spawn h command dir (fs st)) as [after [c|e]].
  - destruct (returncode c =? 0) eqn:Erc; intros [= <- <-];
      (eexists [_]; split; [reflexivity|]).
    + left. repeat constructor. simpl. now rewrite Erc.
    + right. eexists [], _. split; [reflexivity|]. split; [constructor|].
      simpl. rewrite Erc. split; [reflexivity|].
      split; [reflexivity|]. split; [reflexivity|]. apply last_snoc.
  - intros [= <- <-]. eexists [_]. split; [reflexivity|].
    left. now repeat constructor.
Qed.

Ltac fail_fast_steps :=
  repeat first
    [ apply fail_fast_run_command | apply fail_fast_venv_create
    | apply fail_fast_input | apply fail_fast_write_text
    | apply fail_fast_chmod | apply fail_fast_exists
    | apply fail_fast_print | apply fail_fast_ret
    | match goal with |- fail_fast _ (if ?b then _ else _) => destruct b end
    | apply fail_fast_bind; [|intros] ].

Lemma fail_fast_main : fail_fast h (main h).
Proof.
  unfold main, clone_repository, create_virtual_environment,
    install_requirements, create_env_file, create_run_script, run_script.
  destruct (is_nt h); cbn [negb]; fail_fast_steps.
Qed.
End FailFast.


(** ** The sample machines *)

Lemma kind_le_insert_new (m : gmap path node) (p : path) (n : node) :
  m !! p = None -> kind_le m (<[p := n]> m).
Proof.
  intros Hp q n' Hq. destruct (decide (p = q)) as [->|Hne]; [congruence|].
  rewrite lookup_insert_ne by assumption. exists n'. auto using same_kind_refl.
Qed.

Lemma posix_machine_well_behaved (pip_works : bool) :
  well_behaved (SetupSamples.posix_machine pip_works).
Proof.
  constructor; simpl.
  - intros argv dir m. destruct (str_eqb _ _).
    + destruct (m !! project_dir) eqn:E; simpl;
        auto using kind_le_refl, kind_le_insert_new.
    + destruct (_ && _); apply kind_le_refl.
  - intros d m. destruct (m !! d) as [[|? ?]|] eqn:E; simpl;
      auto using kind_le_refl, kind_le_insert_new.
  - intros d m m'. destruct (m !! d) as [[|? ?]|] eqn:E; intros [= <-];
      rewrite ?lookup_insert_eq, ?E; eauto.
Qed.

(** ** The claims about the bootstrap script *)

Import SetupSamples.

(** C6. On any machine, with the project directory in place, the last step
    writes run_api.sh with mode 0o755 when os.name is not "nt" and
    run_api.bat when it is, both naming port 8503.  The POSIX text activates
    venv/bin/activate but starts the module api_main, not api_drools; the
    Windows text starts api_drools:app but its activation line holds a BEL
    character where the path venv\Scripts\activate.bat should be. *)
Theorem launch_script_on_each_platform (h : Host) :
  let run := create_run_script h project_dir (start cloned) in
  let content := fst (run_script h project_dir) in
  snd run = Val tt
  /\ if is_nt h then
       fs (fst run) !! (project_dir ++ [lit "run_api.bat"])
         = Some (File content (new_file_mode h))
       /\ contains (lit "uvicorn api_drools:app --host 0.0.0.0 --port 8503") content = true
       /\ contains (lit "activate.bat") content = false
       /\ contains (lit "call venv" ++ [0x5C%N] ++ lit "Scripts" ++ [0x07%N]
                    ++ lit "ctivate.bat") content = true
     else
       fs (fst run) !! (project_dir ++ [lit "run_api.sh"])
         = Some (File content mode_0o755)
       /\ contains (lit "source venv/bin/activate") content = true
       /\ contains (lit "uvicorn api_main:app --host 0.0.0.0 --port 8503") content = true
       /\ contains (lit "api_drools") content = false.
Proof.
  unfold create_run_script, run_script.
  destruct (is_nt h); vm_compute; repeat split.
Qed.

(** C7, as the script behaves.  On well-behaved tools, a run that follows a
    completed run starts no command but git --version and the two pip
    commands, in that order (so no git clone), creates no virtual
    environment, asks nothing and writes nothing but the launch script; if
    it completes it has run both pip commands again, and it completes
    whenever the commands it starts return 0. *)
Theorem second_run_skips_clone_and_venv (h : Host) (m : gmap path node)
    (st1 st2 : state) (r2 : res unit)
    (Htools : well_behaved h)
    (Hfirst : main h (start m) = (st1, Val tt))
    (Hsecond : main h (start (fs st1)) = (st2, r2)) :
  commands (trace st2) `prefix_of` [git_version; pip_upgrade h; pip_install h]
  /\ ~ In git_clone (commands (trace st2))
  /\ Forall (launch_script_only h) (trace st2)
  /\ (r2 = Val tt ->
      commands (trace st2) = [git_version; pip_upgrade h; pip_install h])
  /\ (Forall spawn_ok (trace st2) -> r2 = Val tt).
Proof.
  apply main_val_set_up in Hfirst; [|assumption].
  destruct (rerun_main h Htools (start (fs st1)) st2 r2 Hfirst Hsecond)
    as (t & Ht & Hquiet & Hpre & Hval & Hok).
  simpl in Ht. subst t.
  split; [assumption|]. split; [|split; [assumption|split]].
  - intros Hin. destruct Hpre as [rest Hrest].
    assert (Hin' : In git_clone [git_version; pip_upgrade h; pip_install h])
      by (rewrite Hrest; apply in_or_app; now left).
    simpl in Hin'. unfold git_clone, git_version, pip_upgrade, pip_install in Hin'.
    destruct Hin' as [E|[E|[E|[]]]]; discriminate E.
  - intros ->. now destruct (Hval tt eq_refl).
  - intros Hall. destruct (Hok Hall) as [[] ->]. reflexivity.
Qed.

Lemma second_run_skips_clone_and_venv_witness :
  let first := main posix_host (start ∅) in
  let second := main posix_host (start (fs (fst first))) in
  snd first = Val tt
  /\ ~ In git_clone (commands (trace (fst second)))
  /\ Forall (launch_script_only posix_host) (trace (fst second)).
Proof.
  split; [vm_compute; reflexivity|].
  refine (let H := second_run_skips_clone_and_venv posix_host ∅
                     (fst (main posix_host (start ∅)))
                     (fst (main posix_host
                             (start (fs (fst (main posix_host (start ∅)))))))
                     (snd (main posix_host
                             (start (fs (fst (main posix_host (start ∅)))))))
                     (posix_machine_well_behaved true) _ _ in
          conj (proj1 (proj2 H)) (proj1 (proj2 (proj2 H)))).
  - vm_compute; reflexivity.
  - apply surjective_pairing.
Defined.

(** C7 as stated fails: on a POSIX machine with working tools, the run that
    follows a completed run starts both pip commands again. *)
Lemma second_run_reinstalls :
  let first := main posix_host (start ∅) in
  let second := main posix_host (start (fs (fst first))) in
  snd first = Val tt
  /\ snd second = Val tt
  /\ commands (trace (fst second))
     = [git_version; pip_upgrade posix_host; pip_install posix_host]
  /\ In (pip_install posix_host) (commands (trace (fst second))).
Proof.
  assert (E : commands (trace (fst (main posix_host
                (start (fs (fst (main posix_host (start ∅))))))))
              = [git_version; pip_upgrade posix_host; pip_install posix_host])
    by (vm_compute; reflexivity).
  cbv zeta. rewrite E.
  split; [vm_compute; reflexivity|]. split; [vm_compute; reflexivity|].
  split; [reflexivity|]. simpl. auto.
Qed.

(** C8, as the script behaves.  When a command the script starts returns a
    code other than 0, that command is the last thing the run does: the
    script exits with status 1, the file system stays as the command left
    it, and the last line written is "Error: " followed by the text of the
    exception, which names the command and its return code. *)
Theorem failed_command_stops_script (h : Host) (m : gmap path node)
    (st : state) (r : res unit) (i : nat)
    (argv : list str) (dir : option path) (c : CompletedProcess)
    (after : gmap path node)
    (Hrun : main h (start m) = (st, r))
    (Hev : trace st !! i = Some (EvSpawn argv dir (Return c) after))
    (Hfail : returncode c <> 0) :
  S i = length (trace st)
  /\ r = Abort (SystemExit 1)
  /\ exit_status r = 1
  /\ fs st = after
  /\ last (out st) =
       Some (lit "Error: "
             ++ str_of_CalledProcessError h
                  {| cpe_returncode := returncode c; cpe_cmd := argv;
                     cpe_output := []; cpe_stderr := [] |}
             ++ [0x0A%N]).
Proof.
  destruct (fail_fast_main h _ _ _ Hrun) as (t & Ht & Hcases).
  simpl in Ht. rewrite Ht in *. clear Ht.
  apply list_elem_of_split_length in Hev as (pre & post & Hsplit & Hlen).
  assert (Hfailed : failed (EvSpawn argv dir (Return c) after) <> false).
  { simpl. destruct (Z.eqb_spec (returncode c) 0); [contradiction|discriminate]. }
  destruct Hcases as [Hclean|(t0 & ev & -> & Hc0 & _ & Hstop)].
  - exfalso. rewrite Hsplit in Hclean.
    apply Forall_app in Hclean as [_ Hc].
    apply Forall_cons in Hc as [Hc _]. contradiction.
  - symmetry in Hsplit.
    apply (snoc_unique (fun ev => failed ev = false)) in Hsplit
      as (-> & <- & ->); [|assumption..].
    destruct Hstop as (-> & Hfs & Hout).
    rewrite length_app. simpl.
    split; [lia|]. split; [reflexivity|]. split; [reflexivity|].
    split; assumption.
Qed.

Lemma failed_command_stops_script_witness :
  let run := main pip_fails_host (start ∅) in
  length (trace (fst run)) = 6%nat /\ exit_status (snd run) = 1.
Proof.
  refine (let H := failed_command_stops_script pip_fails_host ∅
                     (fst (main pip_fails_host (start ∅)))
                     (snd (main pip_fails_host (start ∅)))
                     5%nat
                     (fst (pip_install pip_fails_host))
                     (snd (pip_install pip_fails_host))
                     (completed 1 pip_error_text)
                     (fs (fst (main pip_fails_host (start ∅))))
                     _ _ _ in
          conj (eq_sym (proj1 H)) (proj1 (proj2 (proj2 H)))).
  - apply surjective_pairing.
  - vm_compute; reflexivity.
  - simpl; lia.
Defined.

(** C8 as stated fails: when pip install -r returns 1 with an error text on
    its standard error, the script stops with status 1, and nothing it has
    written contains that text; its last line names the command and the
    return code only. *)
Lemma failed_install_hides_stderr :
  let run := main pip_fails_host (start ∅) in
  last (trace (fst run))
    = Some (EvSpawn (fst (pip_install pip_fails_host))
                    (snd (pip_install pip_fails_host))
                    (Return (completed 1 pip_error_text))
                    (fs (fst run)))
  /\ exit_status (snd run) = 1
  /\ existsb (contains pip_error_text) (out (fst run)) = false
  /\ last (out (fst run))
     = Some (lit "Error: Command '['/home/dev/Drools-api/venv/bin/python', '-m', 'pip', 'install', '-r', 'requirements.txt']' returned non-zero exit status 1."
             ++ [0x0A%N]).
Proof. vm_compute. repeat split. Qed.

End SetupFacts.

(* ===================================================================== *)
(** * Further properties of the Python values                              *)
(* ===================================================================== *)

Module PyMore.
Import Py PyFacts.

Lemma str_eqb_eq (a b : str) : str_eqb a b = true <-> a = b.
Proof.
  revert b; induction a as [|x a IH]; intros [|y b]; simpl;
    try (split; [discriminate|discriminate]); [tauto|].
  rewrite andb_true_iff, N.eqb_eq, IH. split.
  - now intros [-> ->].
  - now intros [= -> ->].
Qed.

Lemma lstrip_all_space (s : str) : forallb isspace s = true -> lstrip s = [].
Proof.
  induction s as [|c s IH]; simpl; [reflexivity|].
  destruct (isspace c); simpl; [exact IH|discriminate].
Qed.

(** [strip] gives the empty text exactly on texts made of white space. *)
Lemma strip_empty_iff (s : str) : strip s = [] <-> forallb isspace s = true.
Proof.
  split.
  - intros E. destruct (strip_spec s) as [(lead & trail & Hs & Hl & Ht) _].
    rewrite E in Hs. rewrite Hs. simpl. rewrite forallb_app. now rewrite Hl, Ht.
  - intros H. unfold strip. now rewrite (lstrip_all_space s H).
Qed.

(** Two-digit fields determine their number. *)
Lemma fmt_02d_inj (a b : Z) :
  0 <= a <= 99 -> 0 <= b <= 99 -> fmt_02d a = fmt_02d b -> a = b.
Proof.
  intros Ha Hb E.
  assert (Hall : forallb (fun i => forallb (fun j =>
              Nat.eqb i j
              || negb (str_eqb (fmt_02d (Z.of_nat i)) (fmt_02d (Z.of_nat j))))
              (seq 0 100)) (seq 0 100) = true) by (vm_compute; reflexivity).
  rewrite forallb_forall in Hall.
  specialize (Hall (Z.to_nat a)). rewrite forallb_forall in Hall.
  specialize (Hall ltac:(apply in_seq; lia) (Z.to_nat b) ltac:(apply in_seq; lia)).
  rewrite !Z2Nat.id in Hall by lia.
  apply orb_prop in Hall as [Hab|Hne].
  - apply Nat.eqb_eq in Hab. lia.
  - apply (proj2 (str_eqb_eq _ _)) in E. rewrite E in Hne. discriminate.
Qed.

(** The time stamp tells month, day, hour and minute apart, and nothing
    else. *)
Lemma strftime_eq_iff (d1 d2 : datetime) :
  valid_datetime d1 = true -> valid_datetime d2 = true ->
  (strftime_m_d_H_M d1 = strftime_m_d_H_M d2 <->
   month d1 = month d2 /\ day d1 = day d2
   /\ hour d1 = hour d2 /\ minute d1 = minute d2).
Proof.
  intros H1 H2. split.
  - intros E. unfold valid_datetime in H1, H2.
    repeat (apply andb_prop in H1 as [H1 ?]).
    repeat (apply andb_prop in H2 as [H2 ?]).
    repeat match goal with
           | Hle : (_ <=? _) = true |- _ => apply Z.leb_le in Hle
           end.
    unfold strftime_m_d_H_M in E.
    destruct (fmt_02d_digits (month d1)) as (a1 & a2 & Ea & _); [lia|].
    destruct (fmt_02d_digits (day d1)) as (b1 & b2 & Eb & _); [lia|].
    destruct (fmt_02d_digits (hour d1)) as (c1 & c2 & Ec & _); [lia|].
    destruct (fmt_02d_digits (minute d1)) as (e1 & e2 & Ee & _); [lia|].
    destruct (fmt_02d_digits (month d2)) as (a1' & a2' & Ea' & _); [lia|].
    destruct (fmt_02d_digits (day d2)) as (b1' & b2' & Eb' & _); [lia|].
    destruct (fmt_02d_digits (hour d2)) as (c1' & c2' & Ec' & _); [lia|].
    destruct (fmt_02d_digits (minute d2)) as (e1' & e2' & Ee' & _); [lia|].
    rewrite Ea, Eb, Ec, Ee, Ea', Eb', Ec', Ee' in E.
    injection E as -> -> -> -> -> -> -> ->.
    rewrite <- Ea' in Ea. rewrite <- Eb' in Eb.
    rewrite <- Ec' in Ec. rewrite <- Ee' in Ee.
    repeat split; apply fmt_02d_inj; auto; lia.
  - intros (Em & Ed & Eh & En). unfold strftime_m_d_H_M.
    now rewrite Em, Ed, Eh, En.
Qed.


End PyMore.

(* ===================================================================== *)
(** * Further properties of the HTTP service                               *)
(* ===================================================================== *)

Module ApiExtras.
Import Py PyFacts PyMore Api ApiSamples.

(** ** Status codes *)

Lemma generate_body_cases (w : World) (p : DroolsRAGPipeline)
    (request : GenerateRequest) :
  (exists form java code chunks,
      load_form w = Return form /\ load_java_model w = Return java
      /\ generate_drools p (query request) form java (k request)
         = Return (code, chunks)
      /\ ((utf8_encodable (strip code) = true
           /\ generate_body w p request
              = ([CallLoadForm; CallLoadJavaModel;
                  CallGenerateDrools (query request) form java (k request)],
                 Return {| resp_content := strip code;
                           media_type := lit "application/octet-stream";
                           headers := [(lit "Content-Disposition",
                                        lit "attachment; filename="
                                        ++ (lit "generated_rule_"
                                            ++ strftime_m_d_H_M (now w)
                                            ++ lit ".drl"))] |}))
          \/ (utf8_encodable (strip code) = false
              /\ exists e,
                   is_file_not_found e = false
                   /\ generate_body w p request
                      = ([CallLoadForm; CallLoadJavaModel;
                          CallGenerateDrools (query request) form java
                            (k request)],
                         Raise e))))
  \/ (exists t e, generate_body w p request = (t, Raise e)
        /\ (load_form w = Raise e
            \/ exists form, load_form w = Return form
               /\ (load_java_model w = Raise e
                   \/ exists java, load_java_model w = Return java
                      /\ generate_drools p (query request) form java (k request)
                         = Raise e))).
Proof.
  unfold generate_body, make_response, invoke, bind, ret.
  destruct (load_form w) as [form|e] eqn:Ef.
  2:{ right. eexists _, e. split; [reflexivity|]. now left. }
  destruct (load_java_model w) as [java|e] eqn:Ej.
  2:{ right. eexists _, e. split; [reflexivity|].
      right. exists form. split; [reflexivity|]. now left. }
  destruct (generate_drools p _ _ _ _) as [[code chunks]|e] eqn:Eg.
  - left. exists form, java, code, chunks.
    split; [reflexivity|]. split; [reflexivity|]. split; [exact Eg|].
    destruct (utf8_encode_error (strip code)) as [e|] eqn:Ee.
    + right. split.
      * destruct (utf8_encodable (strip code)) eqn:Hu; [|reflexivity].
        apply utf8_encode_error_none in Hu. congruence.
      * exists e. split; [eapply utf8_encode_error_kind; eassumption|].
        reflexivity.
    + left. split; [now apply utf8_encode_error_none|reflexivity].
  - right. eexists _, e. split; [reflexivity|].
    right. exists form. split; [reflexivity|].
    right. exists java. split; [reflexivity|assumption].
Qed.

(** X4. The /generate handler answers 200, 400, 500 or 503 and nothing
    else: 503 exactly when the pipeline is unset, and 200 exactly when the
    pipeline is set, both loaders and the generation return, and the
    trimmed text can be encoded for the response. *)
Theorem generate_status_codes (w : World) (request : GenerateRequest) :
  let s := status (snd (generate_drools_file w request)) in
  (s = 200 \/ s = 400 \/ s = 500 \/ s = 503)
  /\ (s = 503 <-> pipeline w = None)
  /\ (s = 200 <->
      exists p form java code chunks,
        pipeline w = Some p
        /\ load_form w = Return form /\ load_java_model w = Return java
        /\ generate_drools p (query request) form java (k request)
           = Return (code, chunks)
        /\ utf8_encodable (strip code) = true).
Proof.
  unfold generate_drools_file.
  destruct (pipeline w) as [p|] eqn:Ep; simpl.
  - destruct (generate_body_cases w p request)
      as [(form & java & code & chunks & Ef & Ej & Eg
           & [(Hu & ->)|(Hu & e & He & ->)])
         |(t & e & -> & Hwhy)]; simpl.
    + split; [auto|]. split; [split; discriminate|].
      split; [eauto 10|reflexivity].
    + rewrite He. simpl. split; [auto|]. split; [split; discriminate|].
      split; [discriminate|].
      intros (p0 & f' & j' & c' & ch' & [= <-] & Hf & Hj & Hg & Hu').
      congruence.
    + assert (Hno : ~ exists p0 form java code chunks,
                 Some p = Some p0
                 /\ load_form w = Return form /\ load_java_model w = Return java
                 /\ generate_drools p0 (query request) form java (k request)
                    = Return (code, chunks)
                 /\ utf8_encodable (strip code) = true).
      { intros (p0 & form & java & code & chunks & [= <-] & Ef & Ej & Eg & _).
        destruct Hwhy as [Hf|(f' & Hf & [Hj|(j' & Hj & Hg)])]; congruence. }
      destruct (is_file_not_found e); simpl;
        (split; [auto|]); (split; [split; discriminate|]);
        (split; [discriminate|intros H; destruct (Hno H)]).
  - split; [auto|]. split; [tauto|].
    split; [discriminate|]. intros (p0 & ? & ? & ? & ? & [=] & _).
Qed.



(** ** Process start *)




(** ** GET /info *)

(** X5. On /info an exception of a loader, a missing file included, gives
    500 with the exception's text alone as detail; the second loader is not
    called when the first raised. *)
Theorem info_loader_failure (w : World) (p : DroolsRAGPipeline) (e : exn)
    (Hp : pipeline w = Some p)
    (Hraise : load_form w = Raise e
              \/ exists form, load_form w = Return form
                              /\ load_java_model w = Raise e) :
  get_info w
  = (match load_form w with
     | Raise _ => [CallLoadForm]
     | Return _ => [CallLoadForm; CallLoadJavaModel]
     end,
     HTTPException 500 (exn_str e)).
Proof.
  unfold get_info, info_body, invoke, bind, ret. rewrite Hp.
  destruct Hraise as [Hf|(form & Hf & Hj)].
  - now rewrite Hf.
  - now rewrite Hf, Hj.
Qed.

(** X6. /info never calls the generation operation: whatever the world, it
    calls the form loader, then the model loader, and nothing else, and it
    answers 200, 500 or 503. *)
Theorem info_calls_loaders_only (w : World) :
  fst (get_info w) `prefix_of` [CallLoadForm; CallLoadJavaModel]
  /\ (forall q f j n, ~ In (CallGenerateDrools q f j n) (fst (get_info w)))
  /\ (status (snd (get_info w)) = 200 \/ status (snd (get_info w)) = 500
      \/ status (snd (get_info w)) = 503).
Proof.
  unfold get_info, info_body, invoke, bind, ret.
  destruct (pipeline w) as [p|]; simpl.
  - destruct (load_form w) as [f|e]; simpl.
    + destruct (load_java_model w) as [j|e]; simpl;
        (split; [now exists []|]); (split; [|auto]);
        intros q f' j' n [H|[H|[]]]; discriminate.
    + split; [now exists [CallLoadJavaModel]|]. split; [|auto].
      intros q f' j' n [H|[]]; discriminate.
  - split; [now eexists|]. split; [|auto]. intros q f j n [].
Qed.

(** X7. A text shorter than the sentinel is reported as loaded, the empty
    text included: its flag is true and its size is its length. *)
Theorem info_short_text_is_loaded (w : World) (p : DroolsRAGPipeline)
    (form java : str)
    (Hp : pipeline w = Some p)
    (Hform : load_form w = Return form)
    (Hjava : load_java_model w = Return java) :
  exists r : Info,
    snd (get_info w) = Ok r
    /\ form_size r = len form /\ java_model_size r = len java
    /\ (len form < 22 -> form_loaded r = true)
    /\ (len java < 25 -> java_model_loaded r = true).
Proof.
  unfold get_info, info_body, invoke, bind, ret.
  rewrite Hp, Hform, Hjava. eexists. split; [reflexivity|].
  cbn [form_size java_model_size form_loaded java_model_loaded].
  split; [reflexivity|]. split; [reflexivity|].
  split; intros Hlen; apply negb_true_iff;
    match goal with
    | |- contains ?m ?t = false =>
        destruct (contains m t) eqn:E; [|reflexivity];
        apply contains_len in E; vm_compute (len m) in E; lia
    end.
Qed.

(** ** POST /generate *)

(** X8. When the pipeline returns nothing but white space, /generate still
    answers 200, with an empty body. *)
Theorem generate_blank_code (w : World) (p : DroolsRAGPipeline)
    (request : GenerateRequest) (form java code : str) (chunks : list Chunk)
    (Hp : pipeline w = Some p)
    (Hform : load_form w = Return form)
    (Hjava : load_java_model w = Return java)
    (Hgen : generate_drools p (query request) form java (k request)
            = Return (code, chunks))
    (Hblank : forallb isspace code = true) :
  exists r : Response,
    snd (generate_drools_file w request) = Ok r /\ resp_content r = [].
Proof.
  apply strip_empty_iff in Hblank.
  unfold generate_drools_file, generate_body, make_response, invoke, bind, ret.
  rewrite Hp, Hform, Hjava, Hgen, Hblank. eexists. split; reflexivity.
Qed.

(** X21. When the loaders and the pipeline return but the trimmed text holds
    a lone surrogate, the response cannot be built: after its three calls
    /generate answers 500, with "Error generating Drools code: " and the
    message of the encoder as detail. *)
Theorem generate_unencodable_text (w : World) (p : DroolsRAGPipeline)
    (request : GenerateRequest) (form java code : str) (chunks : list Chunk)
    (Hp : pipeline w = Some p)
    (Hform : load_form w = Return form)
    (Hjava : load_java_model w = Return java)
    (Hgen : generate_drools p (query request) form java (k request)
            = Return (code, chunks))
    (Hsurrogate : utf8_encodable (strip code) = false) :
  exists e : exn,
    utf8_encode_error (strip code) = Some e
    /\ generate_drools_file w request
       = ([CallLoadForm; CallLoadJavaModel;
           CallGenerateDrools (query request) form java (k request)],
          HTTPException 500 (lit "Error generating Drools code: " ++ exn_str e)).
Proof.
  destruct (utf8_encode_error (strip code)) as [e|] eqn:Ee.
  - exists e. split; [reflexivity|].
    unfold generate_drools_file, generate_body, make_response, invoke, bind, ret.
    rewrite Hp, Hform, Hjava, Hgen, Ee.
    now rewrite (utf8_encode_error_kind _ _ Ee).
  - apply utf8_encode_error_none in Ee. congruence.
Qed.

(** X9. The attachment name is made of month, day, hour and minute only:
    two successful answers carry the same name exactly when their clocks
    agree on these four, whatever the year, the second and the request. *)
Theorem filename_same_iff_same_minute (w1 w2 : World)
    (request1 request2 : GenerateRequest) (r1 r2 : Response)
    (Hnow1 : valid_datetime (now w1) = true)
    (Hnow2 : valid_datetime (now w2) = true)
    (Hok1 : snd (generate_drools_file w1 request1) = Ok r1)
    (Hok2 : snd (generate_drools_file w2 request2) = Ok r2) :
  headers r1 = headers r2 <->
  month (now w1) = month (now w2) /\ day (now w1) = day (now w2)
  /\ hour (now w1) = hour (now w2) /\ minute (now w1) = minute (now w2).
Proof.
  assert (Hh : forall w request r,
             snd (generate_drools_file w request) = Ok r ->
             headers r = [(lit "Content-Disposition",
                           lit "attachment; filename="
                           ++ (lit "generated_rule_" ++ strftime_m_d_H_M (now w)
                               ++ lit ".drl"))]).
  { intros w request r. unfold generate_drools_file.
    destruct (pipeline w) as [p|]; [|discriminate].
    destruct (generate_body_cases w p request)
      as [(form & java & code & chunks & _ & _ & _
           & [(_ & ->)|(_ & e & _ & ->)])
         |(t & e & -> & _)].
    - now intros [= <-].
    - destruct (is_file_not_found e); discriminate.
    - destruct (is_file_not_found e); discriminate. }
  rewrite (Hh _ _ _ Hok1), (Hh _ _ _ Hok2).
  rewrite <- (strftime_eq_iff _ _ Hnow1 Hnow2). split.
  - intros [= E]. now apply app_inv_tail in E.
  - now intros ->.
Qed.

(** X10. Through the route, the generation operation is only ever called
    with the query of the body, of at least 3 characters, with k within
    1..50 (the body's k, or 15 when it has none), and with the texts the two
    loaders returned. *)
Theorem generation_arguments (w : World) (b : Body)
    (q f j : str) (n : Z)
    (Hcall : In (CallGenerateDrools q f j n) (fst (post_generate w b))) :
  body_query b = Some q /\ 3 <= len q
  /\ 1 <= n <= 50 /\ n = default 15 (body_k b)
  /\ load_form w = Return f /\ load_java_model w = Return j.
Proof.
  assert (Hin : forall q0 n0,
            In (CallGenerateDrools q f j n)
               (fst (generate_drools_file w {| query := q0; k := n0 |})) ->
            q0 = q /\ n = n0
            /\ load_form w = Return f /\ load_java_model w = Return j).
  { intros q0 n0. unfold generate_drools_file.
    destruct (pipeline w) as [p|]; [|intros []].
    assert (Hev : forall f0 j0,
               In (CallGenerateDrools q f j n)
                  [CallLoadForm; CallLoadJavaModel;
                   CallGenerateDrools q0 f0 j0 n0] ->
               q0 = q /\ n = n0 /\ f0 = f /\ j0 = j).
    { intros f0 j0 [H|[H|[H|[]]]]; try discriminate.
      now injection H as <- <- <- <-. }
    unfold generate_body, make_response, invoke, bind, ret. simpl.
    destruct (load_form w) as [f0|e0];
      [|destruct (is_file_not_found e0); intros [H|[]]; discriminate].
    destruct (load_java_model w) as [j0|e0];
      [|destruct (is_file_not_found e0); intros [H|[H|[]]]; discriminate].
    destruct (generate_drools p q0 f0 j0 n0) as [[code chunks]|e0];
      [destruct (utf8_encode_error (strip code)) as [e1|];
       [destruct (is_file_not_found e1)|]
      |destruct (is_file_not_found e0)];
      simpl; intros H; destruct (Hev _ _ H) as (-> & -> & -> & ->); auto. }
  unfold post_generate, validate in Hcall.
  destruct (body_query b) as [q0|]; [|destruct Hcall].
  destruct (utf8_encodable q0); simpl in Hcall; [|destruct Hcall].
  destruct (Z.leb_spec 3 (len q0)) as [Hlen|]; [|destruct Hcall].
  destruct (body_k b) as [n0|]; simpl in *.
  - destruct (Z.leb_spec 1 n0), (Z.leb_spec n0 50); simpl in Hcall;
      try destruct Hcall.
    destruct (generate_drools_file w {| query := q0; k := n0 |}) as [t r] eqn:E.
    specialize (Hin q0 n0). rewrite E in Hin.
    destruct (Hin Hcall) as (-> & -> & Hf & Hj). repeat split; auto; lia.
  - destruct (generate_drools_file w {| query := q0; k := 15 |}) as [t r] eqn:E.
    specialize (Hin q0 15). rewrite E in Hin.
    destruct (Hin Hcall) as (-> & -> & Hf & Hj). repeat split; auto; lia.
Qed.

(** ** The further properties on sample worlds *)




Lemma info_loader_failure_witness :
  snd (get_info missing_file_world)
  = HTTPException 500
      (lit "[Errno 2] No such file or directory: 'models/Model.java'").
Proof.
  pose proof (info_loader_failure missing_file_world sample_pipeline _ eq_refl
                (or_intror (ex_intro _ (lit "{fields: []}")
                              (conj eq_refl eq_refl)))) as H.
  rewrite H. reflexivity.
Defined.

Lemma info_short_text_is_loaded_witness :
  exists r : Info,
    snd (get_info blank_world) = Ok r
    /\ form_loaded r = true /\ form_size r = 0.
Proof.
  destruct (info_short_text_is_loaded blank_world blank_pipeline [] []
              eq_refl eq_refl eq_refl) as (r & Hok & Hsize & _ & Hform & _).
  exists r. split; [exact Hok|]. split; [apply Hform; reflexivity|exact Hsize].
Defined.

Lemma generate_blank_code_witness :
  exists r : Response,
    snd (generate_drools_file blank_world sample_request) = Ok r
    /\ resp_content r = [].
Proof.
  exact (generate_blank_code blank_world blank_pipeline sample_request [] []
           [0x20; 0x0A; 0x09]%N sample_chunks
           eq_refl eq_refl eq_refl eq_refl eq_refl).
Defined.

Lemma generate_unencodable_text_witness :
  snd (generate_drools_file surrogate_world sample_request)
  = HTTPException 500
      (lit "Error generating Drools code: 'utf-8' codec can't encode character '\ud800' in position 5: surrogates not allowed").
Proof.
  destruct (generate_unencodable_text surrogate_world surrogate_pipeline
              sample_request [] [] (lit " rule " ++ [0xD800%N] ++ lit " end ")
              sample_chunks eq_refl eq_refl eq_refl eq_refl eq_refl)
    as (e & He & Hrun).
  rewrite Hrun. simpl. injection He as <-. reflexivity.
Defined.

Lemma filename_same_iff_same_minute_witness :
  exists r1 r2 : Response,
    snd (generate_drools_file ready_world sample_request) = Ok r1
    /\ snd (generate_drools_file later_world sample_request) = Ok r2
    /\ headers r1 = headers r2.
Proof.
  eexists _, _. split; [reflexivity|]. split; [reflexivity|].
  apply (filename_same_iff_same_minute ready_world later_world
           sample_request sample_request _ _ eq_refl eq_refl eq_refl eq_refl).
  repeat split.
Defined.

Lemma generation_arguments_witness :
  1 <= 15 <= 50 /\ load_form ready_world = Return (lit "{fields: []}").
Proof.
  pose proof (generation_arguments ready_world plain_body
                (lit "discount rule") (lit "{fields: []}")
                (lit "class Model {}") 15
                (or_intror (or_intror (or_introl eq_refl))))
    as (_ & _ & Hn & _ & Hf & _).
  split; [exact Hn|exact Hf].
Defined.

End ApiExtras.

(* ===================================================================== *)
(** * Further properties of the bootstrap script                           *)
(* ===================================================================== *)

Module SetupExtras.
Import Py PyFacts PyMore Setup SetupFacts SetupSamples.

(** ** The shape of any run *)

Lemma in_cross (A B : list (list (list str * option path)))
    (a b : list (list str * option path)) :
  In a A -> In b B -> In (a ++ b) (cross A B).
Proof.
  intros Ha Hb. unfold cross. apply in_flat_map. exists a.
  split; [assumption|]. now apply in_map.
Qed.

Lemma halts_quiet {A : Type} (t : list event) (r : res A) :
  Forall (fun ev => halting ev = None) t -> halts t r.
Proof. now left. Qed.

Section Conducts.
Variable h : Host.
Variable P : event -> Prop.

Lemma conducts_ret {A : Type} (a : A) : conducts P [[]] (eq a) (ret a).
Proof.
  intros st st' r [= <- <-]. exists []. rewrite app_nil_r.
  split; [reflexivity|]. split; [constructor|].
  split; [exists []; split; [now left|reflexivity]|].
  split; [intros v [= <-]; split; [reflexivity|now left]|].
  split; [discriminate|]. left. constructor.
Qed.

Lemma conducts_weaken {A : Type} (alts alts' : list (list (list str * option path)))
    (R R' : A -> Prop) (m : M A) :
  (forall a, R a -> R' a) -> (forall c, In c alts -> In c alts') ->
  conducts P alts R m -> conducts P alts' R' m.
Proof.
  intros HR Hin Hm st st' r E.
  destruct (Hm _ _ _ E) as (t & Ht & HP & (a & Ha & Hpre) & Hv & Hc & Hh).
  exists t. split; [assumption|]. split; [assumption|].
  split; [exists a; auto|]. split; [|auto].
  intros v Hval. destruct (Hv v Hval). auto.
Qed.

Lemma conducts_bind {A B : Type} (alts1 alts2 : list (list (list str * option path)))
    (R1 : A -> Prop) (R2 : B -> Prop) (m : M A) (f : A -> M B) :
  conducts P alts1 R1 m ->
  (forall a, R1 a -> conducts P alts2 R2 (f a)) ->
  (exists b, In b alts2) ->
  conducts P (cross alts1 alts2) R2 (bind m f).
Proof.
  intros Hm Hf [b0 Hb0] st st' r. unfold bind.
  destruct (m st) as [st1 [a|why]] eqn:E; intros H.
  - destruct (Hm _ _ _ E) as (t1 & Ht1 & HP1 & _ & Hv1 & _ & Hh1).
    destruct (Hv1 a eq_refl) as [HR1 Hin1].
    destruct (Hf a HR1 _ _ _ H)
      as (t2 & Ht2 & HP2 & (b & Hb & Hpre2) & Hv2 & Hc2 & Hh2).
    assert (Hq1 : Forall (fun ev => halting ev = None) t1).
    { destruct Hh1 as [Hq|(t0 & ev & w & _ & _ & _ & Habs)];
        [assumption|discriminate]. }
    exists (t1 ++ t2). rewrite Ht2, Ht1, <- app_assoc, commands_app.
    split; [reflexivity|]. split; [now apply Forall_app|].
    split; [exists (commands t1 ++ b); split;
            [now apply in_cross | now apply prefix_app]|].
    split; [intros v Hval; destruct (Hv2 v Hval); split;
            [assumption | now apply in_cross]|].
    split; [assumption|].
    destruct Hh2 as [Hq2|(t0 & ev & w & -> & Hq0 & Hev & ->)].
    + left. now apply Forall_app.
    + right. exists (t1 ++ t0), ev, w. rewrite <- app_assoc.
      split; [reflexivity|]. split; [now apply Forall_app|]. auto.
  - injection H as <- <-.
    destruct (Hm _ _ _ E) as (t1 & Ht1 & HP1 & (a & Ha & Hpre) & _ & Hc1 & Hh1).
    exists t1. split; [assumption|]. split; [assumption|].
    split; [exists (a ++ b0); split;
            [now apply in_cross | now apply prefix_app_r]|].
    split; [discriminate|].
    split; [intros code [= ->]; now apply Hc1|].
    destruct Hh1 as [Hq|(t0 & ev & w & -> & Hq0 & Hev & [= ->])].
    + now left.
    + right. exists t0, ev, w. auto.
Qed.

(** A step that starts no command. *)
Lemma conducts_seq {A B : Type} (alts : list (list (list str * option path)))
    (R1 : A -> Prop) (R2 : B -> Prop) (m : M A) (f : A -> M B) :
  conducts P [[]] R1 m ->
  (forall a, R1 a -> conducts P alts R2 (f a)) ->
  (exists b, In b alts) ->
  conducts P alts R2 (bind m f).
Proof.
  intros Hm Hf Hne.
  eapply conducts_weaken; [| |eapply conducts_bind; eassumption].
  - auto.
  - intros c Hc. unfold cross in Hc. simpl in Hc. rewrite app_nil_r in Hc.
    apply in_map_iff in Hc as (c' & <- & Hc'). exact Hc'.
Qed.

Lemma conducts_quiet {A : Type} (m : M A) :
  (forall st st' r, m st = (st', r) ->
     exists t, trace st' = trace st ++ t /\ Forall P t
               /\ commands t = []
               /\ Forall (fun ev => halting ev = None) t
               /\ forall code, r <> Abort (SystemExit code)) ->
  conducts P [[]] (fun _ => True) m.
Proof.
  intros Hm st st' r E.
  destruct (Hm _ _ _ E) as (t & Ht & HP & Hc & Hq & Hx).
  exists t. split; [assumption|]. split; [assumption|]. rewrite Hc.
  split; [exists []; split; [now left|reflexivity]|].
  split; [intros v _; split; [exact I|now left]|].
  split; [intros code Hcode; now destruct (Hx code)|]. now left.
Qed.

Lemma conducts_print (s : str) : conducts P [[]] (fun _ => True) (print s).
Proof.
  apply conducts_quiet. intros st st' r [= <- <-]. exists []. simpl.
  rewrite app_nil_r. repeat split; try constructor. discriminate.
Qed.

Lemma conducts_exists (p : path) : conducts P [[]] (fun _ => True) (exists_ p).
Proof.
  apply conducts_quiet. intros st st' r [= <- <-]. exists [].
  rewrite app_nil_r. repeat split; try constructor. discriminate.
Qed.

Lemma conducts_write_text (p : path) (c : str) :
  P (EvWriteText p c) -> conducts P [[]] (fun _ => True) (write_text h p c).
Proof.
  intros HP. apply conducts_quiet. intros st st' r. unfold write_text.
  destruct (fs st !! parent p) as [[|? ?]|];
    [destruct (fs st !! p) as [[|? ?]|]|..]; intros [= <- <-];
    eexists [_]; (split; [reflexivity|]); repeat split;
    repeat constructor; auto; discriminate.
Qed.

Lemma conducts_chmod (p : path) (mode : Z) :
  P (EvChmod p mode) -> conducts P [[]] (fun _ => True) (chmod h p mode).
Proof.
  intros HP. apply conducts_quiet. intros st st' r. unfold chmod.
  destruct (fs st !! p) as [[|? ?]|]; intros [= <- <-];
    eexists [_]; (split; [reflexivity|]); repeat split;
    repeat constructor; auto; discriminate.
Qed.

Lemma conducts_input (prompt : str) :
  P (EvInput prompt) -> conducts P [[]] (fun _ => True) (input_ h prompt).
Proof.
  intros HP. apply conducts_quiet. intros st st' r. unfold input_.
  destruct (input h prompt); intros [= <- <-];
    eexists [_]; (split; [reflexivity|]); repeat split;
    repeat constructor; auto; discriminate.
Qed.

Lemma conducts_venv_create (d : path) :
  (forall r after, P (EvVenvCreate d r after)) ->
  conducts P [[]] (fun _ => True) (venv_create_ h d).
Proof.
  intros HP st st' r. unfold venv_create_.
  destruct (venv_create h d (fs st)) as [after [[]|e]]; intros [= <- <-];
    eexists [_]; (split; [reflexivity|]);
    (split; [repeat constructor; auto|]);
    (split; [exists []; split; [now left|reflexivity]|]).
  - split; [intros v _; split; [exact I|now left]|].
    split; [discriminate|]. left. repeat constructor.
  - split; [discriminate|]. split; [discriminate|].
    right. eexists [], _, _. split; [reflexivity|].
    split; [constructor|]. split; reflexivity.
Qed.

Lemma conducts_run_command (command : list str) (dir : option path) :
  (forall r after, P (EvSpawn command dir r after)) ->
  conducts P [[(command, dir)]] (fun _ => True) (run_command h command dir).
Proof.
  intros HP st st' r. unfold run_command, bind, subprocess_run.
  destruct (spawn h command dir (fs st)) as [after [c|e]].
  - destruct (returncode c =? 0) eqn:Erc; intros [= <- <-];
      (eexists [_]; split; [reflexivity|]);
      (split; [repeat constructor; auto|]);
      (split; [eexists; split; [now left|reflexivity]|]).
    + split; [intros v _; split; [exact I|now left]|].
      split; [discriminate|]. left. repeat constructor. simpl. now rewrite Erc.
    + split; [discriminate|]. split; [now intros code [= <-]|].
      right. eexists [], _, _. split; [reflexivity|].
      split; [constructor|]. simpl. rewrite Erc. split; reflexivity.
  - intros [= <- <-]. eexists [_]. split; [reflexivity|].
    split; [repeat constructor; auto|].
    split; [eexists; split; [now left|reflexivity]|].
    split; [discriminate|]. split; [discriminate|].
    right. eexists [], _, _. split; [reflexivity|].
    split; [constructor|]. split; reflexivity.
Qed.
End Conducts.


(** ** Every step of the script, from any state *)

Lemma placeholder_trimmed : trimmed (lit "your_api_key_here").
Proof.
  split.
  - intros c rest [= <- _]. reflexivity.
  - intros c init E.
    assert (Hl : last (lit "your_api_key_here") = Some c)
      by (rewrite E; apply last_snoc).
    vm_compute in Hl. now injection Hl as <-.
Qed.

Ltac some_alt := eexists; simpl; left; reflexivity.

Section Steps.
Variable h : Host.

Lemma conducts_clone_repository :
  conducts (confined h) [[]; [git_clone]] (eq project_dir) (clone_repository h).
Proof.
  unfold clone_repository.
  eapply conducts_seq; [apply conducts_exists| |some_alt].
  intros there _.
  eapply (conducts_bind _ [[]; [git_clone]] [[]] (fun _ => True));
    [| |some_alt].
  - destruct there.
    + eapply conducts_weaken; [| |apply conducts_print]; simpl; tauto.
    + eapply conducts_weaken with (alts := [[git_clone]]) (R := fun _ => True);
        [auto|simpl; tauto|].
      eapply conducts_seq; [apply conducts_print| |some_alt].
      intros _ _.
      eapply (conducts_bind _ [[git_clone]] [[]]);
        [apply conducts_run_command; intros; now left| |some_alt].
      intros _ _. eapply conducts_weaken; [| |apply conducts_ret]; auto.
  - intros _ _. apply conducts_ret.
Qed.

Lemma conducts_create_virtual_environment :
  conducts (confined h) [[]] (eq venv_dir)
    (create_virtual_environment h project_dir).
Proof.
  unfold create_virtual_environment.
  eapply conducts_seq; [apply conducts_exists| |some_alt].
  intros there _. destruct there.
  - eapply conducts_seq; [apply conducts_print| |some_alt].
    intros _ _. apply conducts_ret.
  - eapply conducts_seq; [apply conducts_print| |some_alt].
    intros _ _.
    eapply conducts_seq;
      [apply conducts_venv_create; intros; reflexivity| |some_alt].
    intros _ _. apply conducts_ret.
Qed.

Lemma conducts_install_requirements :
  conducts (confined h) [[pip_upgrade h; pip_install h]] (fun _ => True)
    (install_requirements h project_dir (get_venv_python h venv_dir)).
Proof.
  unfold install_requirements.
  eapply conducts_seq; [apply conducts_exists| |some_alt].
  intros there _.
  eapply conducts_seq with (R1 := fun _ => True); [| |some_alt].
  - destruct there; cbn [negb].
    + eapply conducts_weaken; [| |apply conducts_ret]; auto.
    + eapply conducts_seq; [apply conducts_print| |some_alt].
      intros _ _. apply conducts_write_text. simpl. now left.
  - intros _ _.
    eapply conducts_seq; [apply conducts_print| |some_alt].
    intros _ _.
    eapply (conducts_bind _ [[pip_upgrade h]] [[pip_install h]]);
      [apply conducts_run_command; intros; now left| |some_alt].
    intros _ _.
    eapply (conducts_bind _ [[pip_install h]] [[]]);
      [apply conducts_run_command; intros; now right| |some_alt].
    intros _ _. eapply conducts_weaken; [| |apply conducts_ret]; auto.
Qed.

Lemma conducts_create_env_file :
  conducts (confined h) [[]] (fun _ => True) (create_env_file h project_dir).
Proof.
  unfold create_env_file.
  eapply conducts_seq; [apply conducts_exists| |some_alt].
  intros there _. destruct there; [apply conducts_print|].
  eapply conducts_seq;
    [apply conducts_input; reflexivity| |some_alt].
  intros line _. cbv zeta.
  eapply conducts_seq; [|intros _ _; apply conducts_print|some_alt].
  apply conducts_write_text. simpl. right. left. split; [reflexivity|].
  destruct (Z.eqb_spec (len (strip line)) 0) as [E|E]; cbn [negb].
  - exists (lit "your_api_key_here"). split; [reflexivity|].
    split; [discriminate|apply placeholder_trimmed].
  - exists (strip line). split; [reflexivity|]. split.
    + intros E'. rewrite E' in E. now apply E.
    + apply strip_spec.
Qed.

Lemma conducts_create_run_script :
  conducts (confined h) [[]] (fun _ => True) (create_run_script h project_dir).
Proof.
  unfold create_run_script.
  destruct (run_script h project_dir) as [content script] eqn:Es.
  eapply conducts_seq; [|intros _ _|some_alt].
  - apply conducts_write_text. simpl. right. right. now rewrite Es.
  - eapply conducts_seq with (R1 := fun _ => True);
      [|intros _ _; apply conducts_print|some_alt].
    destruct (is_nt h) eqn:Ent; cbn [negb].
    + eapply conducts_weaken; [| |apply conducts_ret]; auto.
    + apply conducts_chmod. simpl. now rewrite Es.
Qed.

Lemma conducts_main :
  conducts (confined h)
    [[git_version; pip_upgrade h; pip_install h];
     [git_version; git_clone; pip_upgrade h; pip_install h]]
    (fun _ => True) (main h).
Proof.
  unfold main.
  eapply conducts_seq; [apply conducts_print| |some_alt].
  intros _ _.
  eapply (conducts_bind _ [[git_version]]
            [[pip_upgrade h; pip_install h];
             [git_clone; pip_upgrade h; pip_install h]]);
    [apply conducts_run_command; intros; now left| |some_alt].
  intros _ _.
  eapply (conducts_bind _ [[]; [git_clone]] [[pip_upgrade h; pip_install h]]);
    [apply conducts_clone_repository| |some_alt].
  intros pd <-.
  eapply conducts_seq; [apply conducts_create_virtual_environment| |some_alt].
  intros vd <-.
  eapply (conducts_bind _ [[pip_upgrade h; pip_install h]] [[]]);
    [apply conducts_install_requirements| |some_alt].
  intros _ _.
  eapply conducts_seq; [apply conducts_create_env_file| |some_alt].
  intros _ _.
  eapply conducts_seq; [apply conducts_create_run_script| |some_alt].
  intros _ _.
  repeat (eapply conducts_seq; [apply conducts_print| |some_alt]; intros _ _).
  eapply conducts_seq; [|intros _ _; apply conducts_print|some_alt].
  destruct (is_nt h); apply conducts_print.
Qed.
End Steps.


(** ** Any run of the script *)

(** X11. Whatever the machine and the disk, the commands the script starts
    are, in this order, git --version, git clone (or not), pip install
    --upgrade pip and pip install -r requirements.txt, both pip commands
    with the interpreter of the project's virtual environment: a run stops
    somewhere along one of these two lists, and a run that completes has
    started one of them in full. *)
Theorem commands_in_order (h : Host) (m : gmap path node) :
  let run := main h (start m) in
  let cs := commands (trace (fst run)) in
  (cs `prefix_of` [git_version; pip_upgrade h; pip_install h]
   \/ cs `prefix_of` [git_version; git_clone; pip_upgrade h; pip_install h])
  /\ (snd run = Val tt ->
      cs = [git_version; pip_upgrade h; pip_install h]
      \/ cs = [git_version; git_clone; pip_upgrade h; pip_install h]).
Proof.
  cbv zeta. destruct (main h (start m)) as [st r] eqn:E.
  destruct (conducts_main h _ _ _ E) as (t & Ht & _ & (a & Ha & Hpre) & Hv & _).
  simpl in Ht. simpl. rewrite Ht. split.
  - destruct Ha as [<-|[<-|[]]]; auto.
  - intros ->. destruct (Hv tt eq_refl) as [_ [Hin|[Hin|[]]]]; auto.
Qed.

(** X12. Whatever the machine and the disk, the script touches nothing
    outside the project: it starts its commands in the start directory or
    in Drools-api, creates no virtual environment but Drools-api/venv, asks
    only for the key, writes only requirements.txt (the fixed list), .env
    (OPENAI_API_KEY= and a key that is not empty and has no white space
    around it) and the launch script, and changes a mode only for the
    launch script, off Windows. *)
Theorem events_confined (h : Host) (m : gmap path node) :
  Forall (confined h) (trace (fst (main h (start m)))).
Proof.
  destruct (main h (start m)) as [st r] eqn:E.
  destruct (conducts_main h _ _ _ E) as (t & Ht & HP & _).
  simpl in Ht. simpl. now rewrite Ht.
Qed.


(** X14. A command that cannot be started, or a venv.create that raises, is
    the last thing the script does: the exception is not caught, and the
    exit status is 1. *)
Theorem raise_ends_run (h : Host) (m : gmap path node) (st : state)
    (r : res unit) (i : nat) (ev : event) (e : exn)
    (Hrun : main h (start m) = (st, r))
    (Hev : trace st !! i = Some ev)
    (Hraise : (exists argv dir after, ev = EvSpawn argv dir (Raise e) after)
              \/ (exists d after, ev = EvVenvCreate d (Raise e) after)) :
  S i = length (trace st) /\ r = Abort (Uncaught e) /\ exit_status r = 1.
Proof.
  assert (Hhalt : halting ev = Some (Uncaught e))
    by (destruct Hraise as [(? & ? & ? & ->)|(? & ? & ->)]; reflexivity).
  destruct (conducts_main h _ _ _ Hrun) as (t & Ht & _ & _ & _ & _ & Hh).
  simpl in Ht. rewrite Ht in *. clear Ht.
  apply list_elem_of_split_length in Hev as (pre & post & Hsplit & Hlen).
  destruct Hh as [Hq|(t0 & ev' & why & -> & Hq0 & Hev' & ->)].
  - exfalso. rewrite Hsplit in Hq. apply Forall_app in Hq as [_ Hq].
    apply Forall_cons in Hq as [Hq _]. congruence.
  - symmetry in Hsplit.
    apply (snoc_unique (fun ev => halting ev = None)) in Hsplit
      as (-> & <- & ->); [|assumption|congruence].
    rewrite length_app. simpl. rewrite Hhalt in Hev'. injection Hev' as <-.
    split; [lia|]. split; reflexivity.
Qed.

(** X15. When git cannot be started, the script has printed its banner and
    nothing else (no line of its own about the error), has started nothing
    else, and ends on the uncaught exception. *)
Theorem git_missing_aborts (h : Host) (m after : gmap path node) (e : exn)
    (Hspawn : spawn h [lit "git"; lit "--version"] None m = (after, Raise e)) :
  main h (start m)
  = ({| fs := after;
        out := [lit "Drools RAG API Setup" ++ [0x0A%N]];
        trace := [EvSpawn [lit "git"; lit "--version"] None (Raise e) after] |},
     Abort (Uncaught e)).
Proof.
  unfold main, bind at 1. simpl.
  unfold bind at 1, run_command, bind at 1, subprocess_run. simpl.
  now rewrite Hspawn.
Qed.

(** ** A run that completes *)

Lemma main_val_script (h : Host) (st st' : state) :
  main h st = (st', Val tt) ->
  exists mode,
    fs st' !! snd (run_script h project_dir)
    = Some (File (fst (run_script h project_dir)) mode)
    /\ (is_nt h = false -> mode = mode_0o755).
Proof.
  unfold main. intros H.
  inv_bind H as s0 u0 H0. inv_bind H as s1 c1 H1.
  inv_bind H as s2 pd H2. apply clone_repository_val in H2 as ->.
  inv_bind H as s3 vd H3. inv_bind H as s4 u4 H4. inv_bind H as s5 u5 H5.
  inv_bind H as s6 u6 H6. destruct u6.
  apply create_run_script_val in H6 as (_ & mode & Hfile & Hmode).
  assert (Hfs : fs st' = fs s6).
  { inv_bind H as s7 u7 H7. apply print_run in H7 as (<- & _).
    inv_bind H as s8 u8 H8. apply print_run in H8 as (<- & _).
    inv_bind H as s9 u9 H9. apply print_run in H9 as (<- & _).
    inv_bind H as s10 u10 H10. apply print_run in H10 as (<- & _).
    inv_bind H as s11 u11 H11.
    destruct (is_nt h); apply print_run in H11 as (<- & _);
      now apply print_run in H as (-> & _). }
  rewrite Hfs. eauto.
Qed.

(** X16. On well-behaved tools, a run that completes leaves on disk the
    project directory, its virtual environment, requirements.txt, .env and
    the launch script, the latter with the text of its platform and, off
    Windows, mode 0o755. *)
Theorem completed_run_leaves_setup (h : Host) (m : gmap path node) (st : state)
    (Htools : well_behaved h)
    (Hrun : main h (start m) = (st, Val tt)) :
  set_up h (fs st)
  /\ exists mode,
       fs st !! snd (run_script h project_dir)
       = Some (File (fst (run_script h project_dir)) mode)
       /\ (is_nt h = false -> mode = mode_0o755).
Proof.
  split; [eapply main_val_set_up; eassumption|].
  eapply main_val_script; eassumption.
Qed.

(** ** The single steps *)


(** X18. Step 5 done twice is step 5 done once: after it has completed, it
    asks nothing, writes nothing and leaves the disk as it is. *)
Theorem env_file_kept (h : Host) (st st1 : state)
    (Hfirst : create_env_file h project_dir st = (st1, Val tt)) :
  create_env_file h project_dir st1
  = ({| fs := fs st1;
        out := out st1 ++ [lit ".env file exists." ++ [0x0A%N]];
        trace := trace st1 |},
     Val tt).
Proof.
  apply create_env_file_val in Hfirst.
  unfold create_env_file, bind, exists_.
  rewrite bool_decide_eq_true_2 by exact Hfirst. reflexivity.
Qed.

(** X19. requirements.txt is written only when it is not there, with the
    fixed list of packages and before any command of the step; when it is
    there, the step only starts commands. *)
Theorem requirements_written_only_when_absent (h : Host) (pd py : path)
    (st st' : state) (r : res unit)
    (Hrun : install_requirements h pd py st = (st', r)) :
  exists t,
    trace st' = trace st ++ t
    /\ (is_Some (fs st !! (pd ++ [lit "requirements.txt"] : path)) ->
        forallb is_command t = true)
    /\ (fs st !! (pd ++ [lit "requirements.txt"] : path) = None ->
        exists t',
          t = EvWriteText (pd ++ [lit "requirements.txt"]) basic_requirements :: t'
          /\ forallb is_command t' = true).
Proof.
  revert Hrun. unfold install_requirements, bind at 1, exists_.
  assert (Hpip : forall s s' r',
    (print (lit "Installing requirements...") ;;
     let* _ := run_command h [path_str h py; lit "-m"; lit "pip";
                              lit "install"; lit "--upgrade"; lit "pip"] None in
     let* _ := run_command h [path_str h py; lit "-m"; lit "pip";
                              lit "install"; lit "-r"; lit "requirements.txt"]
                           (Some pd) in
     ret tt) s = (s', r') ->
    exists t, trace s' = trace s ++ t /\ forallb is_command t = true).
  { intros s s' r'. unfold print, run_command, subprocess_run, ret.
    unfold bind. simpl.
    match goal with
    | |- context [spawn h ?a None (fs s)] =>
        destruct (spawn h a None (fs s)) as [m1 [c1|e1]]; simpl;
          [destruct (returncode c1 =? 0); simpl|]
    end;
      try (intros [= <- _]; eexists [_]; split; reflexivity).
    match goal with
    | |- context [spawn h ?a (Some pd) m1] =>
        destruct (spawn h a (Some pd) m1) as [m2 [c2|e2]]; simpl;
          [destruct (returncode c2 =? 0); simpl|]
    end;
      intros [= <- _]; eexists [_; _]; simpl; rewrite <- app_assoc;
      split; reflexivity. }
  destruct (fs st !! (pd ++ [lit "requirements.txt"] : path)) as [n|] eqn:Ereq.
  - rewrite bool_decide_eq_true_2 by eauto. cbn [negb].
    unfold bind at 1, ret. intros Hrun.
    destruct (Hpip _ _ _ Hrun) as (t & Ht & Hc).
    exists t. split; [assumption|]. split; [auto|discriminate].
  - rewrite bool_decide_eq_false_2 by (intros [? ?]; discriminate). cbn [negb].
    unfold bind at 1, bind at 1, print at 1, write_text. simpl.
    rewrite Ereq.
    destruct (fs st !! parent (pd ++ [lit "requirements.txt"] : path)) as [[|? ?]|].
    + intros Hrun. destruct (Hpip _ _ _ Hrun) as (t & Ht & Hc).
      simpl in Ht. eexists (_ :: t). rewrite Ht, <- app_assoc.
      split; [reflexivity|]. split; [intros [? ?]; discriminate|]. eauto.
    + intros [= <- _]. eexists [_]. split; [reflexivity|].
      split; [intros [? ?]; discriminate|]. eauto.
    + intros [= <- _]. eexists [_]. split; [reflexivity|].
      split; [intros [? ?]; discriminate|]. eauto.
Qed.

(** X20. git clone is started exactly when Drools-api is not on disk,
    whatever is there under that name, and the step returns the project
    directory whether it cloned or not. *)
Theorem clone_only_when_absent (h : Host) (st st' : state) (r : res path)
    (Hrun : clone_repository h st = (st', r)) :
  exists t,
    trace st' = trace st ++ t
    /\ commands t = (if bool_decide (is_Some (fs st !! project_dir))
                     then [] else [git_clone])
    /\ length t = length (commands t)
    /\ (forall p, r = Val p -> p = project_dir).
Proof.
  revert Hrun. unfold clone_repository, bind at 1, exists_.
  change [project_dir_name] with project_dir.
  destruct (bool_decide (is_Some (fs st !! project_dir))).
  - unfold bind, print, ret. intros [= <- <-]. exists []. simpl.
    rewrite app_nil_r. repeat split. now intros p [= <-].
  - unfold print, run_command, subprocess_run, ret. unfold bind. simpl.
    match goal with
    | |- context [spawn h ?a None (fs st)] =>
        destruct (spawn h a None (fs st)) as [m1 [c1|e1]]; simpl;
          [destruct (returncode c1 =? 0); simpl|]
    end;
      intros [= <- <-]; eexists [_]; repeat split;
      try discriminate. now intros p [= <-].
Qed.

(** ** The further properties on the sample machines *)

Lemma raise_ends_run_witness :
  let run := main no_git_host (start ∅) in
  length (trace (fst run)) = 1%nat /\ exit_status (snd run) = 1.
Proof.
  refine (let H := raise_ends_run no_git_host ∅
                     (fst (main no_git_host (start ∅)))
                     (snd (main no_git_host (start ∅)))
                     0%nat
                     (EvSpawn [lit "git"; lit "--version"] None
                        (Raise {| is_file_not_found := true;
                                  exn_str := lit "[Errno 2] No such file or directory: 'git'" |})
                        ∅)
                     _ _ _ _ in
          conj (eq_sym (proj1 H)) (proj2 (proj2 H))).
  - apply surjective_pairing.
  - vm_compute; reflexivity.
  - left. eexists _, _, _. reflexivity.
Defined.

Lemma git_missing_aborts_witness :
  exit_status (snd (main no_git_host (start cloned))) = 1.
Proof.
  rewrite (git_missing_aborts no_git_host cloned cloned _ eq_refl).
  reflexivity.
Defined.

Lemma completed_run_leaves_setup_witness :
  set_up posix_host (fs (fst (main posix_host (start ∅)))).
Proof.
  refine (proj1 (completed_run_leaves_setup posix_host ∅
                   (fst (main posix_host (start ∅)))
                   (posix_machine_well_behaved true) _)).
  vm_compute; reflexivity.
Defined.


Lemma env_file_kept_witness :
  let st1 := fst (create_env_file posix_host project_dir (start cloned)) in
  fs (fst (create_env_file posix_host project_dir st1)) = fs st1.
Proof.
  cbv zeta.
  rewrite (env_file_kept posix_host (start cloned)
             (fst (create_env_file posix_host project_dir (start cloned)))).
  - reflexivity.
  - vm_compute; reflexivity.
Defined.

Lemma requirements_written_only_when_absent_witness :
  exists t',
    trace (fst (install_requirements posix_host project_dir
                  (get_venv_python posix_host venv_dir) (start cloned)))
    = EvWriteText requirement_file basic_requirements :: t'
    /\ forallb is_command t' = true.
Proof.
  destruct (requirements_written_only_when_absent posix_host project_dir
              (get_venv_python posix_host venv_dir) (start cloned)
              (fst (install_requirements posix_host project_dir
                      (get_venv_python posix_host venv_dir) (start cloned)))
              (snd (install_requirements posix_host project_dir
                      (get_venv_python posix_host venv_dir) (start cloned)))
              (surjective_pairing _)) as (t & Ht & _ & Habsent).
  destruct (Habsent eq_refl) as (t' & -> & Hc).
  exists t'. split; [exact Ht|exact Hc].
Defined.

Lemma clone_only_when_absent_witness :
  exists t,
    trace (fst (clone_repository posix_host (start cloned))) = [] ++ t
    /\ commands t = [].
Proof.
  destruct (clone_only_when_absent posix_host (start cloned)
              (fst (clone_repository posix_host (start cloned)))
              (snd (clone_repository posix_host (start cloned)))
              (surjective_pairing _)) as (t & Ht & Hc & _).
  exists t. split; [exact Ht|exact Hc].
Defined.

End SetupExtras.
